(** * gwsurrogate.new.nodeFunction: node functions and their registry

    A shallow embedding of [gwsurrogate/new/nodeFunction.py].

    Conventions of the embedding.
    - Numbers.  The module computes with floats (Python floats or numpy
      float64 scalars).  They are idealised as real numbers [R]: rounding,
      overflow, [inf] and [nan] are not represented.  Arithmetic is total, as
      it is on numpy scalars; where a denominator is zero or a logarithm is
      taken of a non-positive number the real value returned by the model has
      no counterpart in the program (which there raises a [ZeroDivisionError]
      on Python floats, or emits a numpy [RuntimeWarning] and goes on with
      [inf] or [nan]), and statements about calls on such inputs carry the
      corresponding precondition.
    - Input vectors are one-dimensional sequences, [list R].
    - Exceptions.  A Python call either returns a value or raises; this is
      the type [pyresult].  Code that reads or changes the interpreter's
      warning filters runs in the state-and-error monad [Py].
    - The module's external collaborators ([parametric_funcs.function_dict],
      [evaluate_fit.getFitEvaluator], the regular-expression engine used by
      the warning filters) are the fields of the class [Externals]. *)

From Stdlib Require Import Reals Lra Psatz Ascii String.
From stdpp Require Import base option list gmap strings.

Local Open Scope R_scope.

(** ** Exceptions and results *)

(** Warning categories of the Python standard library; every category is a
    subclass of [Warning]. *)
Inductive category :=
  | Warning
  | UserWarning
  | DeprecationWarning
  | PendingDeprecationWarning
  | SyntaxWarning
  | RuntimeWarning
  | FutureWarning
  | ImportWarning
  | UnicodeWarning
  | BytesWarning
  | ResourceWarning.

#[global] Instance category_eq_dec : EqDecision category.
Proof. solve_decision. Defined.

(** [issubclass c d]: is category [c] a subclass of category [d]? *)
Definition issubclass (c d : category) : bool :=
  match d with
  | Warning => true
  | _ => bool_decide (c = d)
  end.

(** A warning as [warnings.warn_explicit] sees it: the message text, the
    category, and the module and line it is attributed to. *)
Record warning := mkWarning {
  w_text : string;
  w_category : category;
  w_module : string;
  w_lineno : nat
}.

#[global] Instance warning_eq_dec : EqDecision warning.
Proof. solve_decision. Defined.

(** The exceptions that occur in the module.  [KeyError] and [IndexError] are
    the two builtin subclasses of [LookupError]; [Exception_ msg] is a plain
    [Exception(msg)]; [WarningAsError w] is a warning raised as an exception
    because a filter with action ["error"] matched it; [OtherError tag]
    stands for any exception raised inside an external collaborator. *)
Inductive pyexc :=
  | KeyError
  | IndexError
  | ValueError
  | TypeError
  | Exception_ (msg : string)
  | WarningAsError (w : warning)
  | OtherError (tag : string).

#[global] Instance pyexc_eq_dec : EqDecision pyexc.
Proof. solve_decision. Defined.

(** [issubclass(type(e), LookupError)]. *)
Definition is_LookupError (e : pyexc) : bool :=
  match e with
  | KeyError | IndexError => true
  | _ => false
  end.

Inductive pyresult (A : Type) :=
  | Ok (a : A)
  | Err (e : pyexc).
Arguments Ok {A} a.
Arguments Err {A} e.

#[global] Instance pyresult_ret : MRet pyresult := fun A a => Ok a.
#[global] Instance pyresult_bind : MBind pyresult := fun A B f m =>
  match m with
  | Ok a => f a
  | Err e => Err e
  end.

#[global] Instance pyresult_fmap : FMap pyresult := fun A B f m =>
  match m with
  | Ok a => Ok (f a)
  | Err e => Err e
  end.

Definition raises {A} (r : pyresult A) : Prop := ∃ e, r = Err e.

(** ** The [warnings] module

    The part of the interpreter state that the module touches:
    [warnings.filters], and the warnings that got past the filters.  The
    per-module registries that make a ["default"] or ["once"] warning print
    only the first time are not modelled: [shown] records every warning
    handed on for display together with the action chosen for it. *)

Inductive action :=
  | a_error | a_ignore | a_always | a_default | a_module | a_once.

#[global] Instance action_eq_dec : EqDecision action.
Proof. solve_decision. Defined.

(** An entry of [warnings.filters]: [(action, message, category, module,
    lineno)].  [message] and [module] are the sources of the compiled regular
    expressions, [None] when the filter does not restrict them; [lineno = 0]
    matches every line. *)
Record wfilter := mkFilter {
  f_action : action;
  f_message : option string;
  f_category : category;
  f_module : option string;
  f_lineno : nat
}.

#[global] Instance wfilter_eq_dec : EqDecision wfilter.
Proof. solve_decision. Defined.

Record wstate := mkState {
  filters : list wfilter;
  shown : list (warning * action)
}.

Definition set_filters (fs : list wfilter) (st : wstate) : wstate :=
  {| filters := fs; shown := shown st |}.

Definition add_shown (w : warning) (a : action) (st : wstate) : wstate :=
  {| filters := filters st; shown := shown st ++ [(w, a)] |}.

(** The state-and-error monad of code that runs under the warning filters. *)
Definition Py (A : Type) : Type := wstate → pyresult A * wstate.

#[global] Instance Py_ret : MRet Py := fun A a st => (Ok a, st).
#[global] Instance Py_bind : MBind Py := fun A B f m st =>
  match m st with
  | (Ok a, st') => f a st'
  | (Err e, st') => (Err e, st')
  end.

Definition raise {A} (e : pyexc) : Py A := fun st => (Err e, st).

Definition lift {A} (r : pyresult A) : Py A := fun st => (r, st).

(** [list.remove(x)]: drop the first occurrence of [x], if there is one (the
    [ValueError] of a missing [x] is caught by the caller below). *)
Fixpoint remove_first `{EqDecision A} (x : A) (l : list A) : list A :=
  match l with
  | [] => []
  | y :: l' => if decide (x = y) then l' else y :: remove_first x l'
  end.

(** [warnings.filterwarnings(action, message=message)] with the other
    arguments at their defaults: the entry is moved or inserted to the front
    of [warnings.filters]. *)
Definition filterwarnings (a : action) (message : string) : Py () := fun st =>
  let item :=
    {| f_action := a;
       f_message := if decide (message = EmptyString) then None else Some message;
       f_category := Warning;
       f_module := None;
       f_lineno := 0 |} in
  (Ok (), set_filters (item :: remove_first item (filters st)) st).

(** [with warnings.catch_warnings(): body].  On entry the filter list is
    saved and replaced by a copy; on exit, normal or exceptional, the saved
    list is put back. *)
Definition catch_warnings {A} (body : Py A) : Py A := fun st =>
  let saved := filters st in
  let '(r, st') := body st in
  (r, set_filters saved st').

(** ** External collaborators *)

(** What a fit evaluator does when it is called: it may emit warnings through
    [warnings.warn] and change [warnings.filters] on the way, and it ends by
    returning a number or raising. *)
Inductive fitprog :=
  | Return (y : R)
  | Raise (e : pyexc)
  | Warn (w : warning) (k : fitprog)
  | ChangeFilters (f : list wfilter → list wfilter) (k : fitprog).

(** A fit evaluator: the callable built by [evaluate_fit.getFitEvaluator]. *)
Definition evaluator : Type := list R → fitprog.

(** An entry of [parametric_funcs.function_dict]: a function of the
    coefficients and of one number. *)
Definition parametric_func : Type := option (list R) → R → pyresult R.

(** The collaborators the module imports and does not define. *)
Class Externals := {
  (** [re_match ignorecase pattern text]: does
      [re.compile(pattern, re.I if ignorecase else 0).match(text)] succeed? *)
  re_match : bool → string → string → bool;
  (** [parametric_funcs.function_dict]. *)
  function_dict : gmap string parametric_func;
  (** The fit results written by pySurrogate, opaque to this module. *)
  fit_data_t : Type;
  (** [evaluate_fit.getFitEvaluator]; [Ok None] stands for a result that is
      not callable. *)
  getFitEvaluator : option fit_data_t → pyresult (option evaluator)
}.

Section NodeFunctions.

Context {E : Externals}.

(** *** Warnings under the current filters *)

(** The test of [warnings.warn_explicit] for one filter entry. *)
Definition filter_matches (f : wfilter) (w : warning) : bool :=
  match f_message f with
  | None => true
  | Some p => re_match true p (w_text w)
  end
  && issubclass (w_category w) (f_category f)
  && match f_module f with
     | None => true
     | Some p => re_match false p (w_module w)
     end
  && (bool_decide (f_lineno f = 0%nat) || bool_decide (w_lineno w = f_lineno f)).

(** The action of the first matching filter, [defaultaction] if none. *)
Fixpoint action_for (fs : list wfilter) (w : warning) : action :=
  match fs with
  | [] => a_default
  | f :: fs' => if filter_matches f w then f_action f else action_for fs' w
  end.

(** [warnings.warn]: ignored, raised as an exception, or handed on. *)
Definition warn (w : warning) : Py () := fun st =>
  match action_for (filters st) w with
  | a_ignore => (Ok (), st)
  | a_error => (Err (WarningAsError w), st)
  | a => (Ok (), add_shown w a st)
  end.

(** The run of an evaluator under the warning filters. *)
Fixpoint run_fitprog (p : fitprog) : Py R :=
  match p with
  | Return y => mret y
  | Raise e => raise e
  | Warn w k => warn w ≫= λ _, run_fitprog k
  | ChangeFilters f k => λ st, run_fitprog k (set_filters (f (filters st)) st)
  end.

(** *** The classes of the module *)

Inductive pyclass :=
  | DummyNodeFunction
  | Polyfit1D
  | pySurrogateFit
  | NRHybSur3dq8Fit
  | NRHybSur2dq15Fit
  | MappedPolyFit1D_q10_q_to_nu.

#[global] Instance pyclass_eq_dec : EqDecision pyclass.
Proof. solve_decision. Defined.

(** [cls.__name__]. *)
Definition class_name (c : pyclass) : string :=
  match c with
  | DummyNodeFunction => "DummyNodeFunction"
  | Polyfit1D => "Polyfit1D"
  | pySurrogateFit => "pySurrogateFit"
  | NRHybSur3dq8Fit => "NRHybSur3dq8Fit"
  | NRHybSur2dq15Fit => "NRHybSur2dq15Fit"
  | MappedPolyFit1D_q10_q_to_nu => "MappedPolyFit1D_q10_q_to_nu"
  end.

(** Attributes of a [Polyfit1D] (and of its subclass). *)
Record Polyfit1D_attrs := mkPolyfit1D {
  function_name : option string;
  coefs : option (list R)
}.

(** Attributes of a [pySurrogateFit] (and of its subclasses).  [fitFunc] is
    not among the persisted [data_keys]. *)
Record pySurrogateFit_attrs := mkPySurrogateFit {
  fit_name : option string;
  fit_data : option fit_data_t;
  fitFunc : option evaluator
}.

(** A Python object as the module sees it: an instance of one of its classes
    with its attributes, or any other object, of which only the name of its
    class and what calling it does ([None]: not callable) matter here. *)
Inductive pyobject :=
  | InstDummyNodeFunction (val : option R)
  | InstPolyfit1D (a : Polyfit1D_attrs)
  | InstPySurrogateFit (a : pySurrogateFit_attrs)
  | InstNRHybSur3dq8Fit (a : pySurrogateFit_attrs)
  | InstNRHybSur2dq15Fit (a : pySurrogateFit_attrs)
  | InstMappedPolyFit1D_q10_q_to_nu (a : Polyfit1D_attrs)
  | InstForeign (cls_name : string) (behaviour : option evaluator).

(** The class of an object, when it is a class of this module. *)
Definition class_of (o : pyobject) : option pyclass :=
  match o with
  | InstDummyNodeFunction _ => Some DummyNodeFunction
  | InstPolyfit1D _ => Some Polyfit1D
  | InstPySurrogateFit _ => Some pySurrogateFit
  | InstNRHybSur3dq8Fit _ => Some NRHybSur3dq8Fit
  | InstNRHybSur2dq15Fit _ => Some NRHybSur2dq15Fit
  | InstMappedPolyFit1D_q10_q_to_nu _ => Some MappedPolyFit1D_q10_q_to_nu
  | InstForeign _ _ => None
  end.

(** [o.__class__.__name__]. *)
Definition class_name_of (o : pyobject) : string :=
  match o with
  | InstDummyNodeFunction _ => class_name DummyNodeFunction
  | InstPolyfit1D _ => class_name Polyfit1D
  | InstPySurrogateFit _ => class_name pySurrogateFit
  | InstNRHybSur3dq8Fit _ => class_name NRHybSur3dq8Fit
  | InstNRHybSur2dq15Fit _ => class_name NRHybSur2dq15Fit
  | InstMappedPolyFit1D_q10_q_to_nu _ => class_name MappedPolyFit1D_q10_q_to_nu
  | InstForeign n _ => n
  end.

(** *** Constructors *)

(** The arguments a constructor is called with: none at all, or the
    attributes a persisted record holds for the class. *)
Inductive ctor_args :=
  | NoArgs
  | DummyArgs (return_value : option R)
  | Polyfit1DArgs (function_name : option string) (coefs : option (list R))
  | FitArgs (name : option string) (fit_data : option fit_data_t).

(** [DummyNodeFunction.__init__(self, return_value=None)]. *)
Definition DummyNodeFunction_init (return_value : option R) : pyresult pyobject :=
  Ok (InstDummyNodeFunction return_value).

(** [Polyfit1D.__init__(self, function_name=None, coefs=None)], inherited by
    [MappedPolyFit1D_q10_q_to_nu]; [mk] is the class being instantiated. *)
Definition Polyfit1D_init (mk : Polyfit1D_attrs → pyobject)
    (function_name : option string) (coefs : option (list R)) : pyresult pyobject :=
  Ok (mk {| function_name := function_name; coefs := coefs |}).

(** [pySurrogateFit.h5_prepare_subs]: the value given to [self.fitFunc]. *)
Definition pySurrogateFit_h5_prepare_subs (fit_data : option fit_data_t)
    : pyresult (option evaluator) :=
  getFitEvaluator fit_data.

(** [pySurrogateFit.__init__(self, name=None, fit_data=None)], inherited by
    the two NRHybSur classes. *)
Definition pySurrogateFit_init (mk : pySurrogateFit_attrs → pyobject)
    (name : option string) (fit_data : option fit_data_t) : pyresult pyobject :=
  f ← pySurrogateFit_h5_prepare_subs fit_data;
  Ok (mk {| fit_name := name; fit_data := fit_data; fitFunc := f |}).

(** [cls(...)]: a call of the class [c].  Keyword arguments the class does
    not have are a [TypeError]. *)
Definition construct (c : pyclass) (args : ctor_args) : pyresult pyobject :=
  match c, args with
  | DummyNodeFunction, NoArgs => DummyNodeFunction_init None
  | DummyNodeFunction, DummyArgs v => DummyNodeFunction_init v
  | Polyfit1D, NoArgs => Polyfit1D_init InstPolyfit1D None None
  | Polyfit1D, Polyfit1DArgs f cs => Polyfit1D_init InstPolyfit1D f cs
  | MappedPolyFit1D_q10_q_to_nu, NoArgs =>
      Polyfit1D_init InstMappedPolyFit1D_q10_q_to_nu None None
  | MappedPolyFit1D_q10_q_to_nu, Polyfit1DArgs f cs =>
      Polyfit1D_init InstMappedPolyFit1D_q10_q_to_nu f cs
  | pySurrogateFit, NoArgs => pySurrogateFit_init InstPySurrogateFit None None
  | pySurrogateFit, FitArgs n d => pySurrogateFit_init InstPySurrogateFit n d
  | NRHybSur3dq8Fit, NoArgs => pySurrogateFit_init InstNRHybSur3dq8Fit None None
  | NRHybSur3dq8Fit, FitArgs n d => pySurrogateFit_init InstNRHybSur3dq8Fit n d
  | NRHybSur2dq15Fit, NoArgs => pySurrogateFit_init InstNRHybSur2dq15Fit None None
  | NRHybSur2dq15Fit, FitArgs n d => pySurrogateFit_init InstNRHybSur2dq15Fit n d
  | _, _ => Err TypeError
  end.

(** *** Evaluation: the [__call__] methods *)

(** [d[k]] on a dictionary with string keys; a missing key, [None] included,
    is a [KeyError]. *)
Definition dict_getitem {V} (d : gmap string V) (k : option string) : pyresult V :=
  match k ≫= (d !!.) with
  | Some v => Ok v
  | None => Err KeyError
  end.

(** [x[i]] on a sequence, for an index that is not negative. *)
Definition seq_getitem (x : list R) (i : nat) : pyresult R :=
  match x !! i with
  | Some v => Ok v
  | None => Err IndexError
  end.

(** [np.mean(x)], for [x] that is not empty. *)
Definition np_mean (x : list R) : R :=
  foldr Rplus 0 x / INR (length x).

(** [np.log(q)]; the natural logarithm where [0 < q]. *)
Definition np_log (q : R) : R := ln q.

(** Modelled from the spec: [gwtools.q_to_nu] is imported from the gwtools
    package and is not in this module; the glossary gives the symmetric mass
    ratio as [q/(1+q)^2], which numpy applies to each element of an array. *)
Definition gwtools_q_to_nu (q : list R) : list R :=
  (λ qi, qi / (1 + qi) ^ 2) <$> q.

(** [DummyNodeFunction.__call__]. *)
Definition DummyNodeFunction_call (val : option R) (x : list R) : pyresult R :=
  match val with
  | None => Ok (np_mean x)
  | Some v => Ok v
  end.

(** [Polyfit1D.__call__]. *)
Definition Polyfit1D_call (self : Polyfit1D_attrs) (x : list R) : pyresult R :=
  func ← dict_getitem function_dict (function_name self);
  x0 ← seq_getitem x 0;
  func (coefs self) x0.

(** [pySurrogateFit.__call__]; calling [None] is a [TypeError]. *)
Definition pySurrogateFit_call (self : pySurrogateFit_attrs) (x : list R) : Py R :=
  match fitFunc self with
  | Some ev => run_fitprog (ev x)
  | None => raise TypeError
  end.

(** The message given to [warnings.filterwarnings] by both NRHybSur classes. *)
Definition variance_warning : string :=
  "Predicted variances smaller than 0. Setting those variances to 0.".

(** [NRHybSur3dq8Fit.__call__], up to [mapped_x = ...].  Unpacking a sequence
    that does not have exactly three elements is a [ValueError]. *)
Definition NRHybSur3dq8Fit_mapped_x (x : list R) : pyresult (list R) :=
  match x with
  | [q; chi1z; chi2z] =>
      let eta := q / (1 + q) ^ 2 in
      let chi_wtAvg := (q * chi1z + chi2z) / (1 + q) in
      let chiHat :=
        (chi_wtAvg - 38 * eta / 113 * (chi1z + chi2z)) / (1 - 76 * eta / 113) in
      let chi_a := (chi1z - chi2z) / 2 in
      Ok [np_log q; chiHat; chi_a]
  | _ => Err ValueError
  end.

(** [NRHybSur3dq8Fit.__call__]. *)
Definition NRHybSur3dq8Fit_call (self : pySurrogateFit_attrs) (x : list R) : Py R :=
  mapped_x ← lift (NRHybSur3dq8Fit_mapped_x x);
  catch_warnings
    (filterwarnings a_ignore variance_warning;;
     pySurrogateFit_call self mapped_x).

(** [NRHybSur2dq15Fit.__call__], up to [mapped_x = ...]. *)
Definition NRHybSur2dq15Fit_mapped_x (x : list R) : pyresult (list R) :=
  match x with
  | [q; chi1z] =>
      let chi2z := 0 in
      let eta := q / (1 + q) ^ 2 in
      let chi_wtAvg := (q * chi1z + chi2z) / (1 + q) in
      let chiHat :=
        (chi_wtAvg - 38 * eta / 113 * (chi1z + chi2z)) / (1 - 76 * eta / 113) in
      Ok [np_log q; chiHat]
  | _ => Err ValueError
  end.

(** [NRHybSur2dq15Fit.__call__]. *)
Definition NRHybSur2dq15Fit_call (self : pySurrogateFit_attrs) (x : list R) : Py R :=
  mapped_x ← lift (NRHybSur2dq15Fit_mapped_x x);
  catch_warnings
    (filterwarnings a_ignore variance_warning;;
     pySurrogateFit_call self mapped_x).

(** [MappedPolyFit1D_q10_q_to_nu.__call__]; [x] is a numpy array. *)
Definition MappedPolyFit1D_q10_q_to_nu_call (self : Polyfit1D_attrs) (x : list R)
    : pyresult R :=
  let mapped_x := Rmult 4 <$> gwtools_q_to_nu x in
  Polyfit1D_call self mapped_x.

(** [o(x)]: method dispatch on the class of [o]. *)
Definition call (o : pyobject) (x : list R) : Py R :=
  match o with
  | InstDummyNodeFunction val => lift (DummyNodeFunction_call val x)
  | InstPolyfit1D a => lift (Polyfit1D_call a x)
  | InstPySurrogateFit a => pySurrogateFit_call a x
  | InstNRHybSur3dq8Fit a => NRHybSur3dq8Fit_call a x
  | InstNRHybSur2dq15Fit a => NRHybSur2dq15Fit_call a x
  | InstMappedPolyFit1D_q10_q_to_nu a => lift (MappedPolyFit1D_q10_q_to_nu_call a x)
  | InstForeign _ (Some ev) => run_fitprog (ev x)
  | InstForeign _ None => raise TypeError
  end.

(** *** The registry and the holder *)

(** [NODE_CLASSES], in the order the dictionary is written: the order in
    which [items()] yields its entries. *)
Definition NODE_CLASSES : list (string * pyclass) :=
  [ ("Dummy", DummyNodeFunction);
    ("Polyfit1D", Polyfit1D);
    ("SpEC_q10_non_spinning", MappedPolyFit1D_q10_q_to_nu);
    ("NRHybSur3dq8Fit", NRHybSur3dq8Fit);
    ("NRHybSur2dq15Fit", NRHybSur2dq15Fit) ].

(** The value stored under key [k] in a dictionary given by its items. *)
Fixpoint items_lookup {V} (k : string) (items : list (string * V)) : option V :=
  match items with
  | [] => None
  | (k', v) :: items' => if String.eqb k k' then Some v else items_lookup k items'
  end.

(** [NODE_CLASSES[k]]; a missing key, [None] included, is a [KeyError]. *)
Definition NODE_CLASSES_getitem (k : option string) : pyresult pyclass :=
  match k ≫= λ s, items_lookup s NODE_CLASSES with
  | Some v => Ok v
  | None => Err KeyError
  end.

Record NodeFunction := mkNodeFunction {
  name : string;
  node_function : option pyobject;
  node_class : option string
}.

(** The loop of [NodeFunction.__init__]: for each [(k, v)] of [items], in
    order, [node_class] becomes [k] when the class name [n] of the object is
    [v.__name__]; [nc] is the value of [node_class] before the loop. *)
Definition reverse_lookup (n : string) (items : list (string * pyclass))
    (nc : option string) : option string :=
  foldl (λ nc kv, if String.eqb n (class_name (snd kv)) then Some (fst kv) else nc)
        nc items.

(** [NodeFunction.__init__(self, name='', node_function=None)]. *)
Definition NodeFunction_init (name : string) (node_function : option pyobject)
    : pyresult NodeFunction :=
  match node_function with
  | None =>
      Ok {| name := name; node_function := None; node_class := None |}
  | Some o =>
      let node_class := reverse_lookup (class_name_of o) NODE_CLASSES None in
      match node_class with
      | None => Err (Exception_ "node_function must be in NODE_CLASSES!")
      | Some _ =>
          Ok {| name := name; node_function := Some o; node_class := node_class |}
      end
  end.

(** [NodeFunction.__call__]; calling [None] is a [TypeError]. *)
Definition NodeFunction_call (self : NodeFunction) (x : list R) : Py R :=
  match node_function self with
  | Some o => call o x
  | None => raise TypeError
  end.

(** [NodeFunction.h5_prepare_subs]. *)
Definition NodeFunction_h5_prepare_subs (self : NodeFunction) : pyresult NodeFunction :=
  cls ← NODE_CLASSES_getitem (node_class self);
  o ← construct cls NoArgs;
  Ok {| name := name self; node_function := Some o; node_class := node_class self |}.

End NodeFunctions.

(** ** The parameter maps as the specification writes them *)

(** Symmetric mass ratio, [eta = q/(1+q)^2]. *)
Definition spec_eta (q : R) : R := q / (1 + q) ^ 2.

(** Weighted-average spin, [chi_wtAvg = (q·chi1z + chi2z)/(1+q)]. *)
Definition spec_chi_wtAvg (q chi1z chi2z : R) : R :=
  (q * chi1z + chi2z) / (1 + q).

(** Effective spin,
    [chiHat = (chi_wtAvg − (38η/113)(chi1z+chi2z)) / (1 − 76η/113)]. *)
Definition spec_chiHat (q chi1z chi2z : R) : R :=
  (spec_chi_wtAvg q chi1z chi2z - (38 * spec_eta q / 113) * (chi1z + chi2z))
  / (1 - 76 * spec_eta q / 113).

(** Antisymmetric spin, [chi_a = (chi1z − chi2z)/2]. *)
Definition spec_chi_a (chi1z chi2z : R) : R := (chi1z - chi2z) / 2.

(** [[ln(q), chiHat, chi_a]]. *)
Definition spec_mapped3 (q chi1z chi2z : R) : list R :=
  [ln q; spec_chiHat q chi1z chi2z; spec_chi_a chi1z chi2z].

(** ** A sample environment

    Concrete collaborators on which the definitions can be run. *)

(** Lower-case form of an ASCII letter. *)
Definition ascii_lower (c : ascii) : ascii :=
  let n := nat_of_ascii c in
  if (65 <=? n)%nat && (n <=? 90)%nat then ascii_of_nat (n + 32) else c.

(** [re.match] for a pattern whose only metacharacter is the dot, which
    matches every character but the newline; the text has to start with a
    match of the pattern. *)
Fixpoint simple_match (ignorecase : bool) (p t : string) : bool :=
  match p, t with
  | EmptyString, _ => true
  | String _ _, EmptyString => false
  | String c p', String d t' =>
      (if Ascii.eqb c "."%char then negb (Ascii.eqb d "010"%char)
       else if ignorecase then Ascii.eqb (ascii_lower c) (ascii_lower d)
       else Ascii.eqb c d)
      && simple_match ignorecase p' t'
  end.

(** [np.polyval(coefs, x)] by Horner's rule; coefficients that are [None]
    are a [TypeError]. *)
Definition polyval_1d : parametric_func := λ coefs x,
  match coefs with
  | Some cs => Ok (foldl (λ acc c, acc * x + c) 0 cs)
  | None => Err TypeError
  end.

(** The warning scikit-learn's Gaussian-process regressor emits. *)
Definition gpr_variance_warning : warning :=
  {| w_text := "Predicted variances smaller than 0. Setting those variances to 0.";
     w_category := UserWarning;
     w_module := "sklearn.gaussian_process._gpr";
     w_lineno := 1 |}.

(** An unrelated warning. *)
Definition overflow_warning : warning :=
  {| w_text := "overflow encountered in exp";
     w_category := RuntimeWarning;
     w_module := "numpy";
     w_lineno := 1 |}.

(** A sample evaluator: the scalar product with the fit data, announced by
    the two warnings above. *)
Definition sample_evaluator (d : list R) : evaluator := λ x,
  Warn gpr_variance_warning
    (Warn overflow_warning
       (Return (foldr Rplus 0 (zip_with Rmult d x)))).

Definition sample_env : Externals :=
  {| re_match := simple_match;
     function_dict := {[ "polyval_1d"%string := polyval_1d ]};
     fit_data_t := list R;
     getFitEvaluator := λ d, Ok (sample_evaluator <$> d) |}.

(** Filters as an interpreter may hold them: runtime warnings are errors,
    deprecation warnings are ignored. *)
Definition sample_state : wstate :=
  {| filters :=
       [ {| f_action := a_error; f_message := None; f_category := RuntimeWarning;
            f_module := None; f_lineno := 0 |};
         {| f_action := a_ignore; f_message := None; f_category := DeprecationWarning;
            f_module := None; f_lineno := 0 |} ];
     shown := [] |}.

(** A fit-evaluator-backed variant with three weights. *)
Definition sample_fit : @pySurrogateFit_attrs sample_env :=
  @mkPySurrogateFit sample_env
    (Some "amp"%string) (Some [1; 2; 3]) (Some (sample_evaluator [1; 2; 3])).

(** A variant whose evaluator empties [warnings.filters] before it warns. *)
Definition resetting_fit : @pySurrogateFit_attrs sample_env :=
  @mkPySurrogateFit sample_env
    (Some "phase"%string) None
    (Some (λ _, ChangeFilters (λ _, []) (Warn gpr_variance_warning (Return 0)))).

(** The polynomial [x + 2]. *)
Definition sample_poly : Polyfit1D_attrs :=
  {| function_name := Some "polyval_1d"%string; coefs := Some [1; 2] |}.

(** A polynomial fit whose function is not in the table. *)
Definition unknown_poly : Polyfit1D_attrs :=
  {| function_name := Some "spline_1d"%string; coefs := Some [1; 2] |}.

(** A holder as it is read back from a file, before its variant is built. *)
Definition stored_node (k : string) : @NodeFunction sample_env :=
  {| name := "node"%string; node_function := None; node_class := Some k |}.

(** An environment whose [getFitEvaluator] refuses missing fit data. *)
Definition strict_env : Externals :=
  {| re_match := simple_match;
     function_dict := {[ "polyval_1d"%string := polyval_1d ]};
     fit_data_t := list R;
     getFitEvaluator := λ d,
       match d with
       | Some ws => Ok (Some (sample_evaluator ws))
       | None => Err (OtherError "no fit data")
       end |}.

(** A variant whose evaluator emits the variance warning and nothing else. *)
Definition quiet_fit : @pySurrogateFit_attrs sample_env :=
  @mkPySurrogateFit sample_env
    (Some "quiet"%string) None
    (Some (λ _, Warn gpr_variance_warning (Return 7))).

(** A variant whose evaluator emits the overflow warning and nothing else. *)
Definition noisy_fit : @pySurrogateFit_attrs sample_env :=
  @mkPySurrogateFit sample_env
    (Some "noisy"%string) None
    (Some (λ _, Warn overflow_warning (Return 7))).

(** A variant as the constructor leaves it when there is no fit data. *)
Definition unset_fit : @pySurrogateFit_attrs sample_env :=
  @mkPySurrogateFit sample_env None None None.

(** ** Auxiliary notions used in the statements *)

(** The entry that both NRHybSur classes put in front of the filters. *)
Definition variance_filter : wfilter :=
  {| f_action := a_ignore;
     f_message := Some variance_warning;
     f_category := Warning;
     f_module := None;
     f_lineno := 0 |}.

(** The warnings whose text the compiled message matches. *)
Definition is_variance_warning {E : Externals} (w : warning) : bool :=
  re_match true variance_warning (w_text w).

(** An evaluator run from which the warnings satisfying [P] are left out. *)
Fixpoint drop_warnings (P : warning → bool) (p : fitprog) : fitprog :=
  match p with
  | Return _ | Raise _ => p
  | Warn w k => if P w then drop_warnings P k else Warn w (drop_warnings P k)
  | ChangeFilters f k => ChangeFilters f (drop_warnings P k)
  end.

(** The evaluator run does not change [warnings.filters] itself. *)
Fixpoint keeps_filters (p : fitprog) : bool :=
  match p with
  | Return _ | Raise _ => true
  | Warn _ k => keeps_filters k
  | ChangeFilters _ _ => false
  end.

(** All persisted attributes of the object are [None]. *)
Definition has_default_attrs {E : Externals} (o : pyobject) : Prop :=
  match o with
  | InstDummyNodeFunction val => val = None
  | InstPolyfit1D a | InstMappedPolyFit1D_q10_q_to_nu a =>
      function_name a = None ∧ coefs a = None
  | InstPySurrogateFit a | InstNRHybSur3dq8Fit a | InstNRHybSur2dq15Fit a =>
      fit_name a = None ∧ fit_data a = None
  | InstForeign _ _ => False
  end.

(** What an evaluator run ends with, its warnings and filter changes
    apart. *)
Fixpoint outcome (p : fitprog) : pyresult R :=
  match p with
  | Return y => Ok y
  | Raise e => Err e
  | Warn _ k | ChangeFilters _ k => outcome k
  end.

(** Every warning of the evaluator run satisfies [P]. *)
Fixpoint all_warnings (P : warning → bool) (p : fitprog) : bool :=
  match p with
  | Return _ | Raise _ => true
  | Warn w k => P w && all_warnings P k
  | ChangeFilters _ k => all_warnings P k
  end.

(** The [fitFunc] of a fit-evaluator-backed object is what
    [getFitEvaluator] makes of its [fit_data]. *)
Definition fitFunc_from_fit_data {E : Externals} (o : pyobject) : Prop :=
  match o with
  | InstPySurrogateFit a | InstNRHybSur3dq8Fit a | InstNRHybSur2dq15Fit a =>
      getFitEvaluator (fit_data a) = Ok (fitFunc a)
  | _ => True
  end.

(** ** Properties *)

Section Properties.

Context {E : Externals}.

Implicit Types (x y : list R) (st : wstate) (q chi1z chi2z : R).

(** *** The monads *)

Lemma Py_bind_lift_Ok {A B} (a : A) (f : A → Py B) st :
  (lift (Ok a) ≫= f) st = f a st.
Proof. reflexivity. Qed.

(** *** Unpacking *)

Lemma NRHybSur3dq8Fit_mapped_x_length x :
  length x ≠ 3%nat → NRHybSur3dq8Fit_mapped_x x = Err ValueError.
Proof.
  destruct x as [|q [|c1 [|c2 [|? ?]]]]; simpl; intros Hlen;
    first [reflexivity | contradiction].
Qed.

Lemma NRHybSur2dq15Fit_mapped_x_length x :
  length x ≠ 2%nat → NRHybSur2dq15Fit_mapped_x x = Err ValueError.
Proof.
  destruct x as [|q [|c1 [|? ?]]]; simpl; intros Hlen;
    first [reflexivity | contradiction].
Qed.

Lemma NRHybSur3dq8Fit_mapped_x_spec q chi1z chi2z :
  NRHybSur3dq8Fit_mapped_x [q; chi1z; chi2z] = Ok (spec_mapped3 q chi1z chi2z).
Proof. reflexivity. Qed.

(** *** Sanity checks from the specification's examples *)

Example chi_a_symmetric (chi : R) : spec_chi_a chi chi = 0.
Proof. unfold spec_chi_a. lra. Qed.

Example mapped3_equal_mass :
  NRHybSur3dq8Fit_mapped_x [1; 1/2; 1/2] = Ok [0; 1/2; 0].
Proof.
  simpl. unfold np_log. rewrite ln_1.
  assert (Hhat : (1 * (1/2) + 1/2) / (1 + 1)
                 - 38 * (1 / ((1 + 1) * ((1 + 1) * 1))) / 113 * (1/2 + 1/2)
                 = 1/2 * (1 - 76 * (1 / ((1 + 1) * ((1 + 1) * 1))) / 113)) by lra.
  rewrite Hhat. f_equal. f_equal. f_equal; [field | f_equal; lra].
Qed.

Example chiHat_2dq15_zero_spin q :
  NRHybSur2dq15Fit_mapped_x [q; 0] = Ok [ln q; 0].
Proof.
  simpl. unfold np_log. do 3 f_equal.
  rewrite Rmult_0_r, !Rplus_0_r, Rmult_0_r. unfold Rdiv. rewrite !Rmult_0_l.
  lra.
Qed.

Example q_to_nu_equal_mass : Rmult 4 <$> gwtools_q_to_nu [1] = [1].
Proof. simpl. f_equal. lra. Qed.

Example dummy_mean : DummyNodeFunction_call None [1; 2; 3] = Ok 2.
Proof. unfold DummyNodeFunction_call, np_mean. simpl. f_equal. lra. Qed.

(** *** Dictionaries given by their items *)

Lemma items_lookup_None {V} (k : string) (items : list (string * V)) :
  k ∉ items.*1 → items_lookup k items = None.
Proof.
  induction items as [|[k' v] items IH]; simpl; intros Hk; [reflexivity|].
  apply not_elem_of_cons in Hk as [Hne Hk].
  destruct (String.eqb_spec k k') as [->|_]; [contradiction|auto].
Qed.

Lemma items_lookup_Some {V} (k : string) (v : V) (items : list (string * V)) :
  NoDup items.*1 → (k, v) ∈ items → items_lookup k items = Some v.
Proof.
  induction items as [|[k' v'] items IH]; simpl; intros Hnd Hin.
  - by apply elem_of_nil in Hin.
  - apply NoDup_cons in Hnd as [Hk' Hnd].
    apply elem_of_cons in Hin as [[= <- <-]|Hin].
    + by rewrite String.eqb_refl.
    + destruct (String.eqb_spec k k') as [->|_]; [|auto].
      exfalso. apply Hk'. apply list_elem_of_fmap. by exists (k', v).
Qed.

(** *** Claims *)

(** C1.  On a three-element input [[q, chi1z, chi2z]] with [q > 0] and
    nonzero denominators, [NRHybSur3dq8Fit.__call__] passes to its fit
    evaluator, inside the [catch_warnings] block, exactly the vector
    [[ln(q), chiHat, chi_a]] of the specification's formulas. *)
Theorem NRHybSur3dq8Fit_call_passes_mapped_x
    (self : pySurrogateFit_attrs) (ev : evaluator) q chi1z chi2z st :
  0 < q → 1 + q ≠ 0 → 1 - 76 * spec_eta q / 113 ≠ 0 →
  fitFunc self = Some ev →
  NRHybSur3dq8Fit_call self [q; chi1z; chi2z] st
  = catch_warnings
      (filterwarnings a_ignore variance_warning;;
       run_fitprog (ev (spec_mapped3 q chi1z chi2z))) st.
Proof.
  intros _ _ _ Hfit. unfold NRHybSur3dq8Fit_call.
  rewrite NRHybSur3dq8Fit_mapped_x_spec, Py_bind_lift_Ok.
  unfold pySurrogateFit_call. by rewrite Hfit.
Qed.

(** C8.  On every input [[q, chi1z]] the vector mapped by
    [NRHybSur2dq15Fit.__call__] is the first two components of the vector
    mapped by [NRHybSur3dq8Fit.__call__] on [[q, chi1z, 0]], namely
    [[ln(q), chiHat]] with [chi2z] fixed at 0. *)
Theorem NRHybSur2dq15Fit_mapped_x_is_3dq8_prefix q chi1z :
  NRHybSur2dq15Fit_mapped_x [q; chi1z]
  = take 2 <$> NRHybSur3dq8Fit_mapped_x [q; chi1z; 0]
  ∧ NRHybSur2dq15Fit_mapped_x [q; chi1z] = Ok [ln q; spec_chiHat q chi1z 0].
Proof. split; reflexivity. Qed.

(** [Polyfit1D.__call__] reads its input through [x[0]] only. *)
Lemma Polyfit1D_call_hd (self : Polyfit1D_attrs) x :
  Polyfit1D_call self x = Polyfit1D_call self (take 1 x).
Proof.
  unfold Polyfit1D_call, seq_getitem. by destruct x.
Qed.

Lemma mapped_take_1 x :
  take 1 (Rmult 4 <$> gwtools_q_to_nu x)
  = Rmult 4 <$> gwtools_q_to_nu (take 1 x).
Proof. unfold gwtools_q_to_nu. by rewrite !fmap_take. Qed.

Lemma take_1_lookup_0 x y : x !! 0%nat = y !! 0%nat → take 1 x = take 1 y.
Proof.
  destruct x, y; simpl; intros Heq; first [done | by simplify_eq].
Qed.

(** C10.  [Polyfit1D.__call__] depends on the first element of its input
    only: two inputs of length at least one with the same first element give
    the same result, for [Polyfit1D] and for its remapped subclass, and an
    input longer than one element evaluates as its first element alone. *)
Theorem Polyfit1D_call_first_element_only (self : Polyfit1D_attrs) x y :
  (1 ≤ length x)%nat → (1 ≤ length y)%nat → x !! 0%nat = y !! 0%nat →
  Polyfit1D_call self x = Polyfit1D_call self y
  ∧ MappedPolyFit1D_q10_q_to_nu_call self x = MappedPolyFit1D_q10_q_to_nu_call self y
  ∧ Polyfit1D_call self x = Polyfit1D_call self (take 1 x).
Proof.
  intros _ _ Hhd%take_1_lookup_0. split_and!.
  - by rewrite (Polyfit1D_call_hd self x), (Polyfit1D_call_hd self y), Hhd.
  - unfold MappedPolyFit1D_q10_q_to_nu_call.
    rewrite (Polyfit1D_call_hd self (_ <$> gwtools_q_to_nu x)).
    rewrite (Polyfit1D_call_hd self (_ <$> gwtools_q_to_nu y)).
    by rewrite !mapped_take_1, Hhd.
  - apply Polyfit1D_call_hd.
Qed.

(** C4.  A holder without a variant cannot be evaluated: on every input the
    call of [None] raises (a [TypeError], the uninitialized-state error of the
    specification), and the state is left as it was. *)
Theorem NodeFunction_call_uninitialized (self : NodeFunction) x st :
  node_function self = None →
  NodeFunction_call self x st = (Err TypeError, st).
Proof. intros Hnone. unfold NodeFunction_call. by rewrite Hnone. Qed.

(** C7.  Failed lookups are [KeyError]s, a [LookupError], and reach the
    caller as they are: reconstruction under a class key that the registry
    does not have, and evaluation of a [Polyfit1D] whose function name the
    function table does not have, directly or through its holder. *)
Theorem lookup_failures_raise_LookupError :
  is_LookupError KeyError = true
  ∧ (∀ (self : NodeFunction) (k : string),
       node_class self = Some k → k ∉ NODE_CLASSES.*1 →
       NodeFunction_h5_prepare_subs self = Err KeyError)
  ∧ (∀ (self : Polyfit1D_attrs) (n : string) x,
       function_name self = Some n → function_dict !! n = None →
       Polyfit1D_call self x = Err KeyError
       ∧ ∀ (nf : NodeFunction) st,
           node_function nf = Some (InstPolyfit1D self) →
           NodeFunction_call nf x st = (Err KeyError, st)).
Proof.
  split_and!; [reflexivity| |].
  - intros self k Hk Hnotin. unfold NodeFunction_h5_prepare_subs, NODE_CLASSES_getitem.
    rewrite Hk. cbn -[NODE_CLASSES]. by rewrite (items_lookup_None _ _ Hnotin).
  - intros self n x Hn Hnone.
    assert (Hcall : Polyfit1D_call self x = Err KeyError).
    { unfold Polyfit1D_call, dict_getitem. rewrite Hn. simpl. by rewrite Hnone. }
    split; [done|]. intros nf st Hnf. unfold NodeFunction_call.
    rewrite Hnf. simpl. by rewrite Hcall.
Qed.

(** *** The reverse lookup of [NodeFunction.__init__] *)

Lemma reverse_lookup_no_match (n : string) (items : list (string * pyclass)) nc :
  (∀ k v, (k, v) ∈ items → n ≠ class_name v) →
  reverse_lookup n items nc = nc.
Proof.
  revert nc. induction items as [|[k v] items IH]; intros nc Hno;
    unfold reverse_lookup; simpl.
  - reflexivity.
  - destruct (String.eqb_spec n (class_name v)) as [Heq|_].
    + exfalso. by apply (Hno k v); [left|].
    + apply IH. intros k' v' Hin. apply (Hno k'). by right.
Qed.

Lemma reverse_lookup_match (n k : string) (v : pyclass)
    (items : list (string * pyclass)) nc :
  NoDup (class_name <$> items.*2) → (k, v) ∈ items → n = class_name v →
  reverse_lookup n items nc = Some k.
Proof.
  revert nc. induction items as [|[k' v'] items IH]; intros nc Hnd Hin ->;
    unfold reverse_lookup; simpl.
  - by apply elem_of_nil in Hin.
  - simpl in Hnd. apply NoDup_cons in Hnd as [Hfresh Hnd].
    apply elem_of_cons in Hin as [[= <- <-]|Hin].
    + rewrite String.eqb_refl. apply reverse_lookup_no_match.
      intros k2 v2 Hin2 Heq. apply Hfresh. rewrite Heq.
      apply list_elem_of_fmap. exists v2. split; [done|].
      apply list_elem_of_fmap. by exists (k2, v2).
    + by apply IH.
Qed.

Lemma class_name_inj c1 c2 : class_name c1 = class_name c2 → c1 = c2.
Proof. destruct c1, c2; simpl; intros Heq; first [reflexivity | discriminate]. Qed.

Lemma class_name_of_class_of (o : pyobject) (c : pyclass) :
  class_of o = Some c → class_name_of o = class_name c.
Proof. destruct o; simpl; intros [= <-]; reflexivity. Qed.

Lemma NODE_CLASSES_keys_NoDup : NoDup NODE_CLASSES.*1.
Proof. by apply (bool_decide_unpack _). Qed.

Lemma NODE_CLASSES_values_NoDup : NoDup NODE_CLASSES.*2.
Proof. by apply (bool_decide_unpack _). Qed.

Lemma NODE_CLASSES_names_NoDup : NoDup (class_name <$> NODE_CLASSES.*2).
Proof. by apply (bool_decide_unpack _). Qed.

(** An object whose class name is the name of no registered class is
    refused. *)
Lemma NodeFunction_init_no_name_match (name : string) (o : pyobject) :
  (∀ k v, (k, v) ∈ NODE_CLASSES → class_name_of o ≠ class_name v) →
  NodeFunction_init name (Some o)
  = Err (Exception_ "node_function must be in NODE_CLASSES!").
Proof.
  intros Hno. unfold NodeFunction_init.
  by rewrite (reverse_lookup_no_match _ _ _ Hno).
Qed.

(** The comparison is one of class names: an object of a class from
    elsewhere that bears the name of a registered class is taken for it. *)
Remark NodeFunction_init_matches_by_name (name : string) (b : option evaluator) :
  NodeFunction_init name (Some (InstForeign "Polyfit1D" b))
  = Ok {| name := name;
          node_function := Some (InstForeign "Polyfit1D" b);
          node_class := Some "Polyfit1D"%string |}.
Proof. reflexivity. Qed.

(** C2.  The registry has five keys and five distinct classes, each key
    resolves to its class, and constructing a [NodeFunction] from an instance
    of a registered class sets [node_class] to the key of that class. *)
Theorem NODE_CLASSES_bijective :
  (length NODE_CLASSES = 5%nat ∧ NoDup NODE_CLASSES.*1 ∧ NoDup NODE_CLASSES.*2)
  ∧ ∀ (k : string) (c : pyclass) (name : string) (o : pyobject),
      (k, c) ∈ NODE_CLASSES → class_of o = Some c →
      NODE_CLASSES_getitem (Some k) = Ok c
      ∧ NodeFunction_init name (Some o)
        = Ok {| name := name; node_function := Some o; node_class := Some k |}.
Proof.
  split.
  - split_and!; [reflexivity|apply NODE_CLASSES_keys_NoDup|apply NODE_CLASSES_values_NoDup].
  - intros k c name o Hin Hcls. split.
    + unfold NODE_CLASSES_getitem. cbn -[NODE_CLASSES].
      by rewrite (items_lookup_Some _ _ _ NODE_CLASSES_keys_NoDup Hin).
    + unfold NodeFunction_init.
      by rewrite (reverse_lookup_match _ k c _ None NODE_CLASSES_names_NoDup Hin
                    (class_name_of_class_of _ _ Hcls)).
Qed.

(** Among the classes of the module: constructing a [NodeFunction] from an
    instance of a class that is not a value of the registry (this is
    [pySurrogateFit]) raises
    [Exception("node_function must be in NODE_CLASSES!")]. *)
Theorem NodeFunction_init_unregistered (name : string) (o : pyobject) (c : pyclass) :
  class_of o = Some c → c ∉ NODE_CLASSES.*2 →
  NodeFunction_init name (Some o)
  = Err (Exception_ "node_function must be in NODE_CLASSES!").
Proof.
  intros Hcls Hnotin. apply NodeFunction_init_no_name_match.
  intros k v Hin. rewrite (class_name_of_class_of _ _ Hcls).
  intros ->%class_name_inj. apply Hnotin.
  apply list_elem_of_fmap. by exists (k, v).
Qed.

(** C6, amended.  Constructing a [NodeFunction] from an object, of whatever
    type, raises [Exception("node_function must be in NODE_CLASSES!")]
    exactly when the name of the object's class is the name of no registered
    class: the reverse lookup compares class names, not types. *)
Theorem NodeFunction_init_fails_iff_no_class_name (name : string) (o : pyobject) :
  NodeFunction_init name (Some o)
  = Err (Exception_ "node_function must be in NODE_CLASSES!")
  ↔ ∀ k v, (k, v) ∈ NODE_CLASSES → class_name_of o ≠ class_name v.
Proof.
  split.
  - intros Herr k v Hin Hn. unfold NodeFunction_init in Herr.
    by rewrite (reverse_lookup_match _ k v _ None NODE_CLASSES_names_NoDup Hin Hn)
      in Herr.
  - apply NodeFunction_init_no_name_match.
Qed.

(** *** Reconstruction *)

(** A constructor called without arguments yields an instance of its class
    with the persisted attributes unset. *)
Lemma construct_NoArgs_default (c : pyclass) (o : pyobject) :
  construct c NoArgs = Ok o → class_of o = Some c ∧ has_default_attrs o.
Proof.
  destruct c; simpl;
    unfold DummyNodeFunction_init, Polyfit1D_init, pySurrogateFit_init,
      pySurrogateFit_h5_prepare_subs;
    try (intros [= <-]; by simpl);
    destruct (getFitEvaluator None) as [f|e]; simpl; intros [= <-]; by simpl.
Qed.

(** The classes without a fit evaluator are always constructed. *)
Lemma construct_NoArgs_total (c : pyclass) :
  c ∈ [DummyNodeFunction; Polyfit1D; MappedPolyFit1D_q10_q_to_nu] →
  ∃ o, construct c NoArgs = Ok o.
Proof.
  intros Hc. repeat (apply elem_of_cons in Hc as [->|Hc]); [eauto..|].
  by apply elem_of_nil in Hc.
Qed.

(** C3, amended.  Under a class key of the registry,
    [NodeFunction.h5_prepare_subs] calls the class registered under the key
    with no arguments; when the call returns, the holder has a new instance
    of that class whose persisted attributes are all [None], and for the
    three classes without a fit evaluator the call does return. *)
Theorem NodeFunction_h5_prepare_subs_default
    (self : NodeFunction) (k : string) (c : pyclass) :
  node_class self = Some k → (k, c) ∈ NODE_CLASSES →
  NodeFunction_h5_prepare_subs self
  = (o ← construct c NoArgs;
     Ok {| name := name self; node_function := Some o; node_class := Some k |})
  ∧ (∀ nf, NodeFunction_h5_prepare_subs self = Ok nf →
       ∃ o, node_function nf = Some o ∧ class_of o = Some c ∧ has_default_attrs o)
  ∧ (c ∈ [DummyNodeFunction; Polyfit1D; MappedPolyFit1D_q10_q_to_nu] →
       ∃ nf, NodeFunction_h5_prepare_subs self = Ok nf).
Proof.
  intros Hk Hin.
  assert (Hrun : NodeFunction_h5_prepare_subs self
    = (o ← construct c NoArgs;
       Ok {| name := name self; node_function := Some o; node_class := Some k |})).
  { unfold NodeFunction_h5_prepare_subs, NODE_CLASSES_getitem.
    rewrite Hk. cbn -[NODE_CLASSES construct].
    by rewrite (items_lookup_Some _ _ _ NODE_CLASSES_keys_NoDup Hin). }
  rewrite Hrun. split_and!; [reflexivity| |].
  - intros nf. destruct (construct c NoArgs) as [o|e] eqn:Hnew; simpl; [|done].
    intros [= <-]. exists o. split; [done|]. by apply construct_NoArgs_default.
  - intros [o ->]%construct_NoArgs_total. simpl. eauto.
Qed.

(** *** Input length *)

(** C5, amended.  The two NRHybSur classes raise a [ValueError] on every
    input whose length is not their arity (3 and 2).  [Polyfit1D] and its
    remapped subclass raise on the empty input (an [IndexError], or the
    [KeyError] of an unknown function name), and evaluate an input of more
    than one element as they evaluate its first element alone. *)
Theorem input_length_errors :
  (∀ (self : pySurrogateFit_attrs) x st,
     length x ≠ 3%nat → NRHybSur3dq8Fit_call self x st = (Err ValueError, st))
  ∧ (∀ (self : pySurrogateFit_attrs) x st,
     length x ≠ 2%nat → NRHybSur2dq15Fit_call self x st = (Err ValueError, st))
  ∧ (∀ (self : Polyfit1D_attrs) x,
     length x = 0%nat →
     ∃ e, (e = IndexError ∨ e = KeyError)
          ∧ Polyfit1D_call self x = Err e
          ∧ MappedPolyFit1D_q10_q_to_nu_call self x = Err e)
  ∧ (∀ (self : Polyfit1D_attrs) x,
     (1 < length x)%nat →
     Polyfit1D_call self x = Polyfit1D_call self (take 1 x)
     ∧ MappedPolyFit1D_q10_q_to_nu_call self x
       = MappedPolyFit1D_q10_q_to_nu_call self (take 1 x)).
Proof.
  split_and!.
  - intros self x st Hlen. unfold NRHybSur3dq8Fit_call.
    by rewrite (NRHybSur3dq8Fit_mapped_x_length _ Hlen).
  - intros self x st Hlen. unfold NRHybSur2dq15Fit_call.
    by rewrite (NRHybSur2dq15Fit_mapped_x_length _ Hlen).
  - intros self x ->%nil_length_inv.
    unfold MappedPolyFit1D_q10_q_to_nu_call, Polyfit1D_call. simpl.
    destruct (dict_getitem function_dict (function_name self)) as [f|e] eqn:Hf; simpl.
    + exists IndexError. eauto.
    + exists e. split_and!; [|done..]. right.
      unfold dict_getitem in Hf. by destruct (_ ≫= _); simplify_eq.
  - intros self x _. split; [apply Polyfit1D_call_hd|].
    unfold MappedPolyFit1D_q10_q_to_nu_call.
    rewrite (Polyfit1D_call_hd self (_ <$> gwtools_q_to_nu x)).
    rewrite (Polyfit1D_call_hd self (_ <$> gwtools_q_to_nu (take 1 x))).
    by rewrite !mapped_take_1, take_take.
Qed.

(** *** Warning filters *)

Lemma set_filters_same st : set_filters (filters st) st = st.
Proof. by destruct st. Qed.

Lemma set_filters_add_shown fs w a st :
  set_filters fs (add_shown w a st) = add_shown w a (set_filters fs st).
Proof. reflexivity. Qed.

(** Emitting a warning leaves the filters alone. *)
Lemma warn_filters w st : filters (warn w st).2 = filters st.
Proof. unfold warn. by destruct (action_for (filters st) w). Qed.

(** So does a whole run of an evaluator that only warns. *)
Lemma run_fitprog_filters (p : fitprog) st :
  keeps_filters p = true → filters (run_fitprog p st).2 = filters st.
Proof.
  revert st. induction p as [y|e|w k IH|f k _]; intros st Hp; simpl in *;
    [done..| |done].
  unfold mbind, Py_bind. pose proof (warn_filters w st) as Hw.
  destruct (warn w st) as [[[]|e] st']; simpl in *; [|done].
  by rewrite IH.
Qed.

Lemma keeps_filters_drop_warnings (P : warning → bool) (p : fitprog) :
  keeps_filters p = true → keeps_filters (drop_warnings P p) = true.
Proof.
  induction p as [y|e|w k IH|f k _]; simpl; intros Hp; [done..| |done].
  destruct (P w); simpl; auto.
Qed.

Lemma filter_matches_variance_filter w :
  filter_matches variance_filter w = is_variance_warning w.
Proof.
  unfold filter_matches, is_variance_warning. simpl.
  by rewrite !andb_true_r.
Qed.

(** An entry that does not match a warning can be taken out of the list. *)
Lemma action_for_remove_first (f : wfilter) (fs : list wfilter) w :
  filter_matches f w = false →
  action_for (remove_first f fs) w = action_for fs w.
Proof.
  intros Hf. induction fs as [|g fs IH]; simpl; [done|].
  case_decide as Hfg.
  - subst g. by rewrite Hf.
  - simpl. by rewrite IH.
Qed.

(** The action chosen once the entry of the NRHybSur classes is in front. *)
Lemma action_for_variance_filter (fs : list wfilter) w :
  action_for (variance_filter :: remove_first variance_filter fs) w
  = if is_variance_warning w then a_ignore else action_for fs w.
Proof.
  simpl. rewrite filter_matches_variance_filter.
  destruct (is_variance_warning w) eqn:Hw; [done|].
  apply action_for_remove_first. by rewrite filter_matches_variance_filter.
Qed.

Lemma filterwarnings_variance st :
  filterwarnings a_ignore variance_warning st
  = (Ok (), set_filters (variance_filter :: remove_first variance_filter (filters st)) st).
Proof. reflexivity. Qed.

(** A warning emitted under the extended filters: dropped if the variance
    message matches it, treated as under the filters before if not. *)
Lemma warn_variance_filter w st :
  let fs' := variance_filter :: remove_first variance_filter (filters st) in
  warn w (set_filters fs' st)
  = if is_variance_warning w then (Ok (), set_filters fs' st)
    else let '(r, st') := warn w st in (r, set_filters fs' st').
Proof.
  intros fs'. unfold warn.
  change (filters (set_filters fs' st)) with fs'. subst fs'.
  rewrite action_for_variance_filter.
  destruct (is_variance_warning w); [done|].
  by destruct (action_for (filters st) w).
Qed.

(** Under the extended filters an evaluator runs as, under the filters
    before, the evaluator without its variance warnings. *)
Lemma run_fitprog_variance_filter (p : fitprog) st :
  keeps_filters p = true →
  let fs' := variance_filter :: remove_first variance_filter (filters st) in
  run_fitprog p (set_filters fs' st)
  = let '(r, st') := run_fitprog (drop_warnings is_variance_warning p) st in
    (r, set_filters fs' st').
Proof.
  revert st. induction p as [y|e|w k IH|f k _]; intros st Hp fs'; [done..| |done].
  simpl in Hp. specialize (λ st, IH st Hp).
  cbn [run_fitprog drop_warnings]. unfold mbind, Py_bind.
  subst fs'. rewrite warn_variance_filter.
  destruct (is_variance_warning w) eqn:Hw.
  - apply IH.
  - cbn [run_fitprog]. unfold mbind, Py_bind.
    pose proof (warn_filters w st) as Hfs.
    destruct (warn w st) as [[[]|e] st']; simpl in Hfs; [|done].
    rewrite <-Hfs. apply IH.
Qed.

(** The [with] block of both NRHybSur classes around an evaluator run. *)
Lemma catch_warnings_variance (p : fitprog) st :
  keeps_filters p = true →
  catch_warnings (filterwarnings a_ignore variance_warning;; run_fitprog p) st
  = run_fitprog (drop_warnings is_variance_warning p) st.
Proof.
  intros Hp. unfold catch_warnings, mbind, Py_bind.
  rewrite filterwarnings_variance, run_fitprog_variance_filter by done.
  pose proof (run_fitprog_filters (drop_warnings is_variance_warning p) st
                (keeps_filters_drop_warnings _ _ Hp)) as Hfs.
  destruct (run_fitprog _ st) as [r st']; simpl in *.
  destruct st'; simpl in *. by subst.
Qed.

(** Whatever its body does, a [catch_warnings] block restores the filters. *)
Lemma catch_warnings_filters {A} (body : Py A) st :
  filters (catch_warnings body st).2 = filters st.
Proof. unfold catch_warnings. by destruct (body st). Qed.

(** C9.  A call of either NRHybSur class leaves [warnings.filters] as it
    found them, whatever the evaluator does and however the call ends.  When
    the evaluator is reached (and does not itself change the filters) the
    outcome, that is the result or exception and the warnings let through
    with their actions, is that of the evaluator run under the filters of
    the caller with only the warnings matched by the variance message left
    out. *)
Theorem variance_warning_suppression_scoped (self : pySurrogateFit_attrs) x st :
  filters (NRHybSur3dq8Fit_call self x st).2 = filters st
  ∧ filters (NRHybSur2dq15Fit_call self x st).2 = filters st
  ∧ (∀ (ev : evaluator) (m : list R),
       fitFunc self = Some ev → NRHybSur3dq8Fit_mapped_x x = Ok m →
       keeps_filters (ev m) = true →
       NRHybSur3dq8Fit_call self x st
       = run_fitprog (drop_warnings is_variance_warning (ev m)) st)
  ∧ (∀ (ev : evaluator) (m : list R),
       fitFunc self = Some ev → NRHybSur2dq15Fit_mapped_x x = Ok m →
       keeps_filters (ev m) = true →
       NRHybSur2dq15Fit_call self x st
       = run_fitprog (drop_warnings is_variance_warning (ev m)) st).
Proof.
  split_and!.
  - unfold NRHybSur3dq8Fit_call.
    destruct (NRHybSur3dq8Fit_mapped_x x) as [m|e]; [|done].
    rewrite Py_bind_lift_Ok. apply catch_warnings_filters.
  - unfold NRHybSur2dq15Fit_call.
    destruct (NRHybSur2dq15Fit_mapped_x x) as [m|e]; [|done].
    rewrite Py_bind_lift_Ok. apply catch_warnings_filters.
  - intros ev m Hfit Hm Hkeep. unfold NRHybSur3dq8Fit_call.
    rewrite Hm, Py_bind_lift_Ok. unfold pySurrogateFit_call. rewrite Hfit.
    by apply catch_warnings_variance.
  - intros ev m Hfit Hm Hkeep. unfold NRHybSur2dq15Fit_call.
    rewrite Hm, Py_bind_lift_Ok. unfold pySurrogateFit_call. rewrite Hfit.
    by apply catch_warnings_variance.
Qed.

End Properties.

(** ** Further properties of the module *)

Section FurtherProperties.

Context {E : Externals}.

Implicit Types (x y : list R) (st : wstate) (q chi1z chi2z : R).

(** *** The holder and the registry *)

Lemma reverse_lookup_Some_inv (n k : string) (items : list (string * pyclass))
    (nc : option string) :
  reverse_lookup n items nc = Some k →
  nc = Some k ∨ ∃ v, (k, v) ∈ items ∧ n = class_name v.
Proof.
  revert nc. unfold reverse_lookup.
  induction items as [|[k' v'] items IH]; intros nc; simpl; [by left|].
  intros [Hnc|(v & Hin & Hn)]%IH.
  - destruct (String.eqb_spec n (class_name v')) as [->|_]; [|by left].
    simplify_eq. right. exists v'. split; [left|done].
  - right. exists v. split; [by right|done].
Qed.

(** What a successful [NodeFunction.__init__] on an object has done. *)
Lemma NodeFunction_init_Some_inv (name : string) (o : pyobject) (nf : NodeFunction) :
  NodeFunction_init name (Some o) = Ok nf →
  ∃ k v, (k, v) ∈ NODE_CLASSES ∧ class_name v = class_name_of o
         ∧ nf = {| name := name; node_function := Some o; node_class := Some k |}.
Proof.
  unfold NodeFunction_init.
  destruct (reverse_lookup (class_name_of o) NODE_CLASSES None) as [k|] eqn:Hk;
    [|done].
  intros [= <-]. apply reverse_lookup_Some_inv in Hk as [[=]|(v & Hin & Hn)].
  by exists k, v.
Qed.

(** [NodeFunction.__init__] accepts an object exactly when the name of its
    class is the name of a registered class, whatever the object is; the
    holder then keeps the name and the object it was given, and its
    [node_class] is a key of the registry, the one of the class of that
    name. *)
Theorem NodeFunction_init_by_class_name (name : string) (o : pyobject) :
  (∀ nf, NodeFunction_init name (Some o) = Ok nf →
     ∃ k v, (k, v) ∈ NODE_CLASSES ∧ class_name v = class_name_of o
            ∧ nf = {| name := name; node_function := Some o; node_class := Some k |}
            ∧ NODE_CLASSES_getitem (Some k) = Ok v)
  ∧ (∀ k v, (k, v) ∈ NODE_CLASSES → class_name v = class_name_of o →
       NodeFunction_init name (Some o)
       = Ok {| name := name; node_function := Some o; node_class := Some k |}).
Proof.
  split.
  - intros nf (k & v & Hin & Hn & ->)%NodeFunction_init_Some_inv.
    exists k, v. split_and!; [done..|].
    unfold NODE_CLASSES_getitem. cbn -[NODE_CLASSES].
    by rewrite (items_lookup_Some _ _ _ NODE_CLASSES_keys_NoDup Hin).
  - intros k v Hin Hn. unfold NodeFunction_init.
    by rewrite (reverse_lookup_match _ k v _ None NODE_CLASSES_names_NoDup Hin
                  (eq_sym Hn)).
Qed.

(** A holder built from an object evaluates as the object does: same
    result, same effect on the warning state. *)
Theorem NodeFunction_call_after_init (name : string) (o : pyobject)
    (nf : NodeFunction) x st :
  NodeFunction_init name (Some o) = Ok nf →
  NodeFunction_call nf x st = call o x st.
Proof. by intros (k & v & _ & _ & ->)%NodeFunction_init_Some_inv. Qed.

(** Construction followed by reconstruction: the key that [__init__] has
    set is always found by [h5_prepare_subs], which calls the class of the
    object's class name without arguments; when that call returns, the
    holder has its name and key unchanged and a new instance of that class
    with the persisted attributes unset. *)
Theorem NodeFunction_init_then_h5_prepare_subs (nm : string) (o : pyobject)
    (nf : NodeFunction) :
  NodeFunction_init nm (Some o) = Ok nf →
  ∃ c, c ∈ NODE_CLASSES.*2 ∧ class_name c = class_name_of o
    ∧ NodeFunction_h5_prepare_subs nf
      = (o' ← construct c NoArgs;
         Ok {| name := nm; node_function := Some o';
               node_class := node_class nf |})
    ∧ ∀ nf', NodeFunction_h5_prepare_subs nf = Ok nf' →
        name nf' = nm ∧ node_class nf' = node_class nf
        ∧ ∃ o', node_function nf' = Some o' ∧ class_of o' = Some c
                ∧ class_name_of o' = class_name_of o ∧ has_default_attrs o'.
Proof.
  intros (k & c & Hin & Hn & ->)%NodeFunction_init_Some_inv.
  assert (Hrun : NodeFunction_h5_prepare_subs
                   {| name := nm; node_function := Some o; node_class := Some k |}
    = (o' ← construct c NoArgs;
       Ok {| name := nm; node_function := Some o'; node_class := Some k |})).
  { unfold NodeFunction_h5_prepare_subs, NODE_CLASSES_getitem.
    cbn -[NODE_CLASSES construct].
    by rewrite (items_lookup_Some _ _ _ NODE_CLASSES_keys_NoDup Hin). }
  exists c. split_and!; [|done|done|].
  - apply list_elem_of_fmap. by exists (k, c).
  - rewrite Hrun. intros nf'.
    destruct (construct c NoArgs) as [o'|e] eqn:Hnew; simpl; [|done].
    intros [= <-]. simpl. split_and!; [done..|].
    destruct (construct_NoArgs_default _ _ Hnew) as [Hc Hdef].
    exists o'. split_and!; [done..| |done].
    by rewrite (class_name_of_class_of _ _ Hc).
Qed.

(** A [Polyfit1D] holder that has been reconstructed and not yet filled
    cannot be evaluated: its function name is [None], the lookup in the
    function table comes first, and every call ends in a [KeyError] without
    the input being looked at. *)
Theorem h5_prepare_subs_Polyfit1D_unfilled (self : NodeFunction) :
  node_class self = Some "Polyfit1D"%string →
  ∃ nf, NodeFunction_h5_prepare_subs self = Ok nf
        ∧ node_function nf
          = Some (InstPolyfit1D {| function_name := None; coefs := None |})
        ∧ ∀ x st, NodeFunction_call nf x st = (Err KeyError, st).
Proof.
  intros Hk. unfold NodeFunction_h5_prepare_subs. rewrite Hk.
  eexists. split; [reflexivity|]. split; [reflexivity|].
  intros x st. reflexivity.
Qed.

(** *** Constructors of the fit-evaluator-backed classes *)

(** Whatever the class and the arguments, a constructed object has the
    [fitFunc] that [getFitEvaluator] makes of its [fit_data] (the name plays
    no part), and when [getFitEvaluator] raises, so does the constructor,
    with the same exception. *)
Theorem construct_fitFunc_from_fit_data :
  (∀ (c : pyclass) (args : ctor_args) (o : pyobject),
     construct c args = Ok o → fitFunc_from_fit_data o)
  ∧ (∀ (c : pyclass) (n : option string) (d : option fit_data_t) (e : pyexc),
       c ∈ [pySurrogateFit; NRHybSur3dq8Fit; NRHybSur2dq15Fit] →
       getFitEvaluator d = Err e → construct c (FitArgs n d) = Err e).
Proof.
  split.
  - intros c args o.
    destruct c, args; simpl;
      unfold DummyNodeFunction_init, Polyfit1D_init, pySurrogateFit_init,
        pySurrogateFit_h5_prepare_subs;
      try (intros [= <-]; by simpl);
      match goal with
      | |- context [getFitEvaluator ?d] =>
          destruct (getFitEvaluator d) as [f|e] eqn:Hf; simpl;
          intros [= <-]; by simpl
      end.
  - intros c n d e Hc He.
    repeat (apply elem_of_cons in Hc as [->|Hc]);
      [simpl; unfold pySurrogateFit_init, pySurrogateFit_h5_prepare_subs;
       by rewrite He..|].
    by apply elem_of_nil in Hc.
Qed.

(** *** The parameter maps of the NRHybSur classes *)

Lemma chiHat_denominator_pos q : 0 < 113 * q ^ 2 + 150 * q + 113.
Proof. nra. Qed.

(** The quotient computed for [chiHat], with its denominators cleared. *)
Lemma chiHat_rational q chi1z chi2z :
  1 + q ≠ 0 →
  ((q * chi1z + chi2z) / (1 + q)
   - 38 * (q / (1 + q) ^ 2) / 113 * (chi1z + chi2z))
  / (1 - 76 * (q / (1 + q) ^ 2) / 113)
  = (chi1z * (q * (113 * q + 75)) + chi2z * (75 * q + 113))
    / (113 * q ^ 2 + 150 * q + 113).
Proof.
  intros Hq. pose proof (chiHat_denominator_pos q).
  field. repeat split; try lra; nra.
Qed.

Lemma NRHybSur3dq8Fit_mapped_x_rational q chi1z chi2z :
  1 + q ≠ 0 →
  NRHybSur3dq8Fit_mapped_x [q; chi1z; chi2z]
  = Ok [ln q;
        (chi1z * (q * (113 * q + 75)) + chi2z * (75 * q + 113))
        / (113 * q ^ 2 + 150 * q + 113);
        (chi1z - chi2z) / 2].
Proof.
  intros Hq. unfold NRHybSur3dq8Fit_mapped_x, np_log.
  by rewrite (chiHat_rational _ _ _ Hq).
Qed.

Lemma NRHybSur2dq15Fit_mapped_x_rational q chi1z :
  1 + q ≠ 0 →
  NRHybSur2dq15Fit_mapped_x [q; chi1z]
  = Ok [ln q;
        chi1z * (q * (113 * q + 75)) / (113 * q ^ 2 + 150 * q + 113)].
Proof.
  intros Hq. unfold NRHybSur2dq15Fit_mapped_x, np_log.
  rewrite (chiHat_rational _ _ _ Hq). do 3 f_equal. lra.
Qed.

(** A weighted mean with positive weights lies between its arguments. *)
Lemma chiHat_rational_bounds q chi1z chi2z lo hi :
  0 < q → lo <= chi1z <= hi → lo <= chi2z <= hi →
  lo <= (chi1z * (q * (113 * q + 75)) + chi2z * (75 * q + 113))
        / (113 * q ^ 2 + 150 * q + 113) <= hi.
Proof.
  intros Hq [H1l H1h] [H2l H2h]. pose proof (chiHat_denominator_pos q) as HP.
  assert (Hw1 : 0 < q * (113 * q + 75)) by nra.
  assert (Hw2 : 0 < 75 * q + 113) by lra.
  set (P := 113 * q ^ 2 + 150 * q + 113) in *.
  set (N := chi1z * (q * (113 * q + 75)) + chi2z * (75 * q + 113)).
  assert (HNl : lo * P <= N) by (unfold N, P; nra).
  assert (HNh : N <= hi * P) by (unfold N, P; nra).
  unfold Rdiv. split.
  - apply (Rmult_le_reg_r P); [lra|].
    replace (N * / P * P) with N by (field; lra). exact HNl.
  - apply (Rmult_le_reg_r P); [lra|].
    replace (N * / P * P) with N by (field; lra). exact HNh.
Qed.

(** The weighted mean and the half difference determine both spins. *)
Lemma chiHat_rational_inj q c1 c2 d1 d2 :
  0 < q →
  (c1 * (q * (113 * q + 75)) + c2 * (75 * q + 113)) / (113 * q ^ 2 + 150 * q + 113)
  = (d1 * (q * (113 * q + 75)) + d2 * (75 * q + 113)) / (113 * q ^ 2 + 150 * q + 113) →
  (c1 - c2) / 2 = (d1 - d2) / 2 → c1 = d1 ∧ c2 = d2.
Proof.
  intros Hq Hh Ha. pose proof (chiHat_denominator_pos q) as HP.
  apply (Rmult_eq_compat_r (113 * q ^ 2 + 150 * q + 113)) in Hh.
  unfold Rdiv in Hh. rewrite !Rmult_assoc, Rinv_l, !Rmult_1_r in Hh by lra.
  assert (Hd : c1 - d1 = c2 - d2) by lra.
  assert (H0 : (c1 - d1) * (113 * q ^ 2 + 150 * q + 113) = 0) by nra.
  apply Rmult_integral in H0 as [H0|H0]; [|lra]. split; lra.
Qed.

(** For every mass ratio but [-1], [chiHat] is the mean of the two spins
    with weights [q(113q + 75)] and [75q + 113]: its denominator
    [113q² + 150q + 113] is positive for every [q], so that the map of either
    class has no singular input other than [q = -1] (and [q ≤ 0] for the
    logarithm). *)
Theorem NRHybSur_mapped_x_weighted_mean q chi1z chi2z :
  1 + q ≠ 0 →
  0 < 113 * q ^ 2 + 150 * q + 113
  ∧ q * (113 * q + 75) + (75 * q + 113) = 113 * q ^ 2 + 150 * q + 113
  ∧ NRHybSur3dq8Fit_mapped_x [q; chi1z; chi2z]
    = Ok [ln q;
          (chi1z * (q * (113 * q + 75)) + chi2z * (75 * q + 113))
          / (113 * q ^ 2 + 150 * q + 113);
          (chi1z - chi2z) / 2]
  ∧ NRHybSur2dq15Fit_mapped_x [q; chi1z]
    = Ok [ln q; chi1z * (q * (113 * q + 75)) / (113 * q ^ 2 + 150 * q + 113)].
Proof.
  intros Hq. split_and!.
  - apply chiHat_denominator_pos.
  - ring.
  - by apply NRHybSur3dq8Fit_mapped_x_rational.
  - by apply NRHybSur2dq15Fit_mapped_x_rational.
Qed.

(** Equal spins are mapped to themselves: on [[q, chi, chi]] the mapped
    vector is [[ln q, chi, 0]], for every mass ratio but [-1]. *)
Theorem NRHybSur3dq8Fit_mapped_x_equal_spins q (chi : R) :
  1 + q ≠ 0 →
  NRHybSur3dq8Fit_mapped_x [q; chi; chi] = Ok [ln q; chi; 0].
Proof.
  intros Hq. rewrite (NRHybSur3dq8Fit_mapped_x_rational _ _ _ Hq).
  pose proof (chiHat_denominator_pos q). do 3 f_equal; [field; lra|].
  f_equal. lra.
Qed.

(** The mapped spins stay in the range of the spins: for [q > 0] and both
    spins in [[lo, hi]], [chiHat] is in [[lo, hi]] and [chi_a] in
    [[(lo - hi)/2, (hi - lo)/2]]. *)
Theorem NRHybSur3dq8Fit_mapped_x_bounds q chi1z chi2z lo hi :
  0 < q → lo <= chi1z <= hi → lo <= chi2z <= hi →
  ∃ chiHat chi_a,
    NRHybSur3dq8Fit_mapped_x [q; chi1z; chi2z] = Ok [ln q; chiHat; chi_a]
    ∧ lo <= chiHat <= hi
    ∧ (lo - hi) / 2 <= chi_a <= (hi - lo) / 2.
Proof.
  intros Hq H1 H2. eexists _, _. split; [|split].
  - apply NRHybSur3dq8Fit_mapped_x_rational. lra.
  - by apply chiHat_rational_bounds.
  - lra.
Qed.

(** The map of [NRHybSur3dq8Fit] loses nothing: two inputs with positive
    mass ratios and the same mapped vector are the same input. *)
Theorem NRHybSur3dq8Fit_mapped_x_inj q chi1z chi2z q' chi1z' chi2z' :
  0 < q → 0 < q' →
  NRHybSur3dq8Fit_mapped_x [q; chi1z; chi2z]
  = NRHybSur3dq8Fit_mapped_x [q'; chi1z'; chi2z'] →
  q = q' ∧ chi1z = chi1z' ∧ chi2z = chi2z'.
Proof.
  intros Hq Hq'.
  rewrite !NRHybSur3dq8Fit_mapped_x_rational by lra.
  intros [= Hln Hhat Ha]. apply ln_inv in Hln as <-; [|done..].
  split; [done|]. by apply (chiHat_rational_inj q).
Qed.

(** Exchanging the two bodies, that is passing from [[q, chi1z, chi2z]] to
    [[1/q, chi2z, chi1z]], keeps [chiHat] and changes the sign of [ln q] and
    of [chi_a]. *)
Theorem NRHybSur3dq8Fit_mapped_x_exchange q chi1z chi2z :
  0 < q →
  ∃ chiHat chi_a,
    NRHybSur3dq8Fit_mapped_x [q; chi1z; chi2z] = Ok [ln q; chiHat; chi_a]
    ∧ NRHybSur3dq8Fit_mapped_x [/ q; chi2z; chi1z] = Ok [- ln q; chiHat; - chi_a].
Proof.
  intros Hq. assert (Hq' : 0 < / q) by by apply Rinv_0_lt_compat.
  eexists _, _. split; [apply NRHybSur3dq8Fit_mapped_x_rational; lra|].
  rewrite NRHybSur3dq8Fit_mapped_x_rational by lra.
  rewrite (ln_Rinv _ Hq). pose proof (chiHat_denominator_pos q).
  do 3 f_equal; [|f_equal; lra].
  field. repeat split; try lra; nra.
Qed.

(** The map of [NRHybSur2dq15Fit], for [q > 0]: [chiHat] is the spin scaled
    by a factor strictly between 0 and 1 that depends on the mass ratio
    only, so it has the sign of the spin and is no larger, and two inputs
    with the same mapped vector are the same input. *)
Theorem NRHybSur2dq15Fit_mapped_x_scaling q :
  0 < q →
  ∃ t, 0 < t < 1
    ∧ ∀ chi1z,
        NRHybSur2dq15Fit_mapped_x [q; chi1z] = Ok [ln q; t * chi1z]
        ∧ ∀ q' chi1z', 0 < q' →
            NRHybSur2dq15Fit_mapped_x [q'; chi1z']
            = NRHybSur2dq15Fit_mapped_x [q; chi1z] →
            q' = q ∧ chi1z' = chi1z.
Proof.
  intros Hq. pose proof (chiHat_denominator_pos q) as HP.
  assert (Hw : 0 < q * (113 * q + 75)) by nra.
  exists (q * (113 * q + 75) / (113 * q ^ 2 + 150 * q + 113)).
  assert (Ht : 0 < q * (113 * q + 75) / (113 * q ^ 2 + 150 * q + 113) < 1).
  { split.
    - by apply Rdiv_lt_0_compat.
    - apply (Rmult_lt_reg_r (113 * q ^ 2 + 150 * q + 113)); [done|].
      replace (q * (113 * q + 75) / (113 * q ^ 2 + 150 * q + 113)
               * (113 * q ^ 2 + 150 * q + 113))
        with (q * (113 * q + 75)) by (field; lra).
      nra. }
  split; [exact Ht|]. intros chi1z.
  assert (Hmap : NRHybSur2dq15Fit_mapped_x [q; chi1z]
    = Ok [ln q; q * (113 * q + 75) / (113 * q ^ 2 + 150 * q + 113) * chi1z]).
  { rewrite NRHybSur2dq15Fit_mapped_x_rational by lra.
    do 3 f_equal. unfold Rdiv. ring. }
  split; [exact Hmap|].
  intros q' chi1z' Hq'. rewrite Hmap.
  rewrite NRHybSur2dq15Fit_mapped_x_rational by lra.
  intros [= Hln Hhat]. apply ln_inv in Hln as ->; [|done..].
  split; [done|].
  apply (Rmult_eq_reg_l (q * (113 * q + 75) / (113 * q ^ 2 + 150 * q + 113)));
    [|lra].
  transitivity (chi1z' * (q * (113 * q + 75)) / (113 * q ^ 2 + 150 * q + 113));
    [field; nra|exact Hhat].
Qed.

(** *** Evaluator runs and the variance filter *)

(** Without the warnings it emits, an evaluator that emits nothing else is
    left with its outcome. *)
Lemma run_fitprog_drop_all (P : warning → bool) (p : fitprog) st :
  keeps_filters p = true → all_warnings P p = true →
  run_fitprog (drop_warnings P p) st = (outcome p, st).
Proof.
  induction p as [y|e|w k IH|f k _]; simpl; intros Hk Hall; [done..| |done].
  apply andb_prop in Hall as [Hw Hall]. rewrite Hw. by apply IH.
Qed.

(** Dropping warnings that are not there changes nothing. *)
Lemma drop_warnings_none (P : warning → bool) (p : fitprog) :
  all_warnings (λ w, negb (P w)) p = true → drop_warnings P p = p.
Proof.
  induction p as [y|e|w k IH|f k IH]; simpl; intros Hall; [done..| |].
  - apply andb_prop in Hall as [Hw Hall].
    apply negb_true_iff in Hw. rewrite Hw. by rewrite IH.
  - by rewrite IH.
Qed.

(** On an input with a positive mass ratio, when the evaluator emits
    variance warnings only, a call of either NRHybSur class is silent under
    every filter list, lists that turn warnings into errors included: it
    ends as the evaluator ends, no warning is raised or handed on for
    display, and [warnings.filters] is as before. *)
Theorem NRHybSur_call_silent (self : pySurrogateFit_attrs) (ev : evaluator)
    q chi1z chi2z st :
  0 < q → fitFunc self = Some ev →
  (∀ m, NRHybSur3dq8Fit_mapped_x [q; chi1z; chi2z] = Ok m →
     keeps_filters (ev m) = true → all_warnings is_variance_warning (ev m) = true →
     (NRHybSur3dq8Fit_call self [q; chi1z; chi2z] st).1 = outcome (ev m)
     ∧ filters (NRHybSur3dq8Fit_call self [q; chi1z; chi2z] st).2 = filters st
     ∧ shown (NRHybSur3dq8Fit_call self [q; chi1z; chi2z] st).2 = shown st)
  ∧ (∀ m, NRHybSur2dq15Fit_mapped_x [q; chi1z] = Ok m →
     keeps_filters (ev m) = true → all_warnings is_variance_warning (ev m) = true →
     (NRHybSur2dq15Fit_call self [q; chi1z] st).1 = outcome (ev m)
     ∧ filters (NRHybSur2dq15Fit_call self [q; chi1z] st).2 = filters st
     ∧ shown (NRHybSur2dq15Fit_call self [q; chi1z] st).2 = shown st).
Proof.
  intros _ Hfit. split; intros m Hm Hkeep Hall.
  - unfold NRHybSur3dq8Fit_call. rewrite Hm, Py_bind_lift_Ok.
    unfold pySurrogateFit_call. rewrite Hfit.
    rewrite catch_warnings_variance by done.
    by rewrite run_fitprog_drop_all.
  - unfold NRHybSur2dq15Fit_call. rewrite Hm, Py_bind_lift_Ok.
    unfold pySurrogateFit_call. rewrite Hfit.
    rewrite catch_warnings_variance by done.
    by rewrite run_fitprog_drop_all.
Qed.

(** On an input with a positive mass ratio, when the evaluator emits no
    variance warning, a call of either NRHybSur class ends as the call of
    the base class [pySurrogateFit] on the mapped vector ends, with the same
    result or the same exception, and both leave [warnings.filters] as they
    found them. *)
Theorem NRHybSur_call_as_pySurrogateFit_call
    (self : pySurrogateFit_attrs) (ev : evaluator) q chi1z chi2z st :
  0 < q → fitFunc self = Some ev →
  (∀ m, NRHybSur3dq8Fit_mapped_x [q; chi1z; chi2z] = Ok m →
     keeps_filters (ev m) = true →
     all_warnings (λ w, negb (is_variance_warning w)) (ev m) = true →
     (NRHybSur3dq8Fit_call self [q; chi1z; chi2z] st).1
     = (pySurrogateFit_call self m st).1
     ∧ filters (NRHybSur3dq8Fit_call self [q; chi1z; chi2z] st).2 = filters st
     ∧ filters (pySurrogateFit_call self m st).2 = filters st)
  ∧ (∀ m, NRHybSur2dq15Fit_mapped_x [q; chi1z] = Ok m →
     keeps_filters (ev m) = true →
     all_warnings (λ w, negb (is_variance_warning w)) (ev m) = true →
     (NRHybSur2dq15Fit_call self [q; chi1z] st).1
     = (pySurrogateFit_call self m st).1
     ∧ filters (NRHybSur2dq15Fit_call self [q; chi1z] st).2 = filters st
     ∧ filters (pySurrogateFit_call self m st).2 = filters st).
Proof.
  intros _ Hfit. split; intros m Hm Hkeep Hall.
  - unfold NRHybSur3dq8Fit_call. rewrite Hm, Py_bind_lift_Ok.
    unfold pySurrogateFit_call. rewrite Hfit.
    rewrite catch_warnings_variance by done. rewrite drop_warnings_none by done.
    split; [done|]. split; by apply run_fitprog_filters.
  - unfold NRHybSur2dq15Fit_call. rewrite Hm, Py_bind_lift_Ok.
    unfold pySurrogateFit_call. rewrite Hfit.
    rewrite catch_warnings_variance by done. rewrite drop_warnings_none by done.
    split; [done|]. split; by apply run_fitprog_filters.
Qed.

(** *** [DummyNodeFunction] *)

Lemma sum_bounds (x : list R) (lo hi : R) :
  Forall (λ v, lo <= v <= hi) x →
  lo * INR (length x) <= foldr Rplus 0 x <= hi * INR (length x).
Proof.
  induction 1 as [|v x [Hl Hh] _ [IHl IHh]].
  - simpl. lra.
  - cbn [length foldr]. rewrite S_INR. lra.
Qed.

Lemma sum_Permutation (x y : list R) :
  x ≡ₚ y → foldr Rplus 0 x = foldr Rplus 0 y.
Proof.
  induction 1 as [|v x y _ IH|v w x|x y z _ IH1 _ IH2]; simpl;
    [done|by rewrite IH|lra|congruence].
Qed.

(** [DummyNodeFunction] "returns the input or a constant": a configured
    value is returned whatever the input; without one the result is the
    element of a one-element input, in general a number within the range of
    the elements of a non-empty input, and it does not depend on the order
    of the elements. *)
Theorem DummyNodeFunction_call_constant_or_mean :
  (∀ (v : R) x, DummyNodeFunction_call (Some v) x = Ok v)
  ∧ (∀ (v : R), DummyNodeFunction_call None [v] = Ok v)
  ∧ (∀ x (lo hi : R),
       x ≠ [] → Forall (λ v, lo <= v <= hi) x →
       ∃ r, DummyNodeFunction_call None x = Ok r ∧ lo <= r <= hi)
  ∧ (∀ (val : option R) x y,
       x ≡ₚ y → DummyNodeFunction_call val x = DummyNodeFunction_call val y).
Proof.
  split; [done|]. split; [|split].
  - intros v. unfold DummyNodeFunction_call, np_mean. simpl. f_equal. field.
  - intros x lo hi Hne Hall. eexists. split; [reflexivity|].
    unfold np_mean. pose proof (sum_bounds x lo hi Hall) as [Hl Hh].
    assert (Hn : 0 < INR (length x)).
    { apply lt_0_INR. destruct x; [done|simpl; lia]. }
    split.
    + apply (Rmult_le_reg_r (INR (length x))); [done|].
      unfold Rdiv. rewrite Rmult_assoc, Rinv_l, Rmult_1_r by lra. done.
    + apply (Rmult_le_reg_r (INR (length x))); [done|].
      unfold Rdiv. rewrite Rmult_assoc, Rinv_l, Rmult_1_r by lra. done.
  - intros [v|] x y Hxy; [done|]. unfold DummyNodeFunction_call, np_mean.
    by rewrite (sum_Permutation _ _ Hxy), (Permutation_length Hxy).
Qed.

(** *** [Polyfit1D] with a function of the table *)

(** With a function name of the table, [Polyfit1D] and its remapped
    subclass raise an [IndexError] on the empty input, and on any other
    input [Polyfit1D] hands on what the function makes of the coefficients
    and the first element, its exceptions included. *)
Theorem Polyfit1D_call_known_function (self : Polyfit1D_attrs) (n : string)
    (f : parametric_func) :
  function_name self = Some n → function_dict !! n = Some f →
  Polyfit1D_call self [] = Err IndexError
  ∧ MappedPolyFit1D_q10_q_to_nu_call self [] = Err IndexError
  ∧ ∀ (x0 : R) x, Polyfit1D_call self (x0 :: x) = f (coefs self) x0.
Proof.
  intros Hn Hf.
  assert (Hget : dict_getitem function_dict (function_name self) = Ok f).
  { unfold dict_getitem. rewrite Hn. simpl. by rewrite Hf. }
  unfold MappedPolyFit1D_q10_q_to_nu_call, Polyfit1D_call. rewrite Hget.
  split_and!; [done..|]. intros x0 x. simpl. by destruct (f (coefs self) x0).
Qed.

(** *** Fit wrappers without an evaluator *)

(** A fit wrapper whose [fitFunc] is [None] raises a [TypeError]: the base
    class on every input and without touching the warning state, the two
    NRHybSur classes on every input of their arity with a positive mass
    ratio, where no warning is handed on for display and [warnings.filters]
    is as before. *)
Theorem fit_call_without_evaluator (self : pySurrogateFit_attrs) st :
  fitFunc self = None →
  (∀ x, pySurrogateFit_call self x st = (Err TypeError, st))
  ∧ (∀ q chi1z chi2z, 0 < q →
       (NRHybSur3dq8Fit_call self [q; chi1z; chi2z] st).1 = Err TypeError
       ∧ filters (NRHybSur3dq8Fit_call self [q; chi1z; chi2z] st).2 = filters st
       ∧ shown (NRHybSur3dq8Fit_call self [q; chi1z; chi2z] st).2 = shown st)
  ∧ (∀ q chi1z, 0 < q →
       (NRHybSur2dq15Fit_call self [q; chi1z] st).1 = Err TypeError
       ∧ filters (NRHybSur2dq15Fit_call self [q; chi1z] st).2 = filters st
       ∧ shown (NRHybSur2dq15Fit_call self [q; chi1z] st).2 = shown st).
Proof.
  intros Hfit. split; [|split].
  - intros x. unfold pySurrogateFit_call. by rewrite Hfit.
  - intros q chi1z chi2z _.
    unfold NRHybSur3dq8Fit_call, pySurrogateFit_call. by rewrite Hfit.
  - intros q chi1z _.
    unfold NRHybSur2dq15Fit_call, pySurrogateFit_call. by rewrite Hfit.
Qed.

End FurtherProperties.

(** ** The claims on the sample environment *)

#[local] Existing Instance sample_env.

Lemma NRHybSur3dq8Fit_call_passes_mapped_x_witness :
  (0 < 1 ∧ 1 + 1 ≠ 0 ∧ 1 - 76 * spec_eta 1 / 113 ≠ 0
   ∧ fitFunc sample_fit = Some (sample_evaluator [1; 2; 3]))
  ∧ NRHybSur3dq8Fit_call sample_fit [1; 1/2; 1/2] sample_state
    = catch_warnings
        (filterwarnings a_ignore variance_warning;;
         run_fitprog (sample_evaluator [1; 2; 3] (spec_mapped3 1 (1/2) (1/2))))
        sample_state.
Proof.
  assert (H1 : 0 < 1) by lra.
  assert (H2 : 1 + 1 ≠ 0) by lra.
  assert (H3 : 1 - 76 * spec_eta 1 / 113 ≠ 0) by (unfold spec_eta; simpl; lra).
  split; [by split_and!|].
  exact (NRHybSur3dq8Fit_call_passes_mapped_x sample_fit _ 1 (1/2) (1/2)
           sample_state H1 H2 H3 eq_refl).
Defined.

Lemma NODE_CLASSES_bijective_witness :
  NODE_CLASSES_getitem (Some "SpEC_q10_non_spinning"%string)
  = Ok MappedPolyFit1D_q10_q_to_nu
  ∧ NodeFunction_init "node" (Some (InstMappedPolyFit1D_q10_q_to_nu sample_poly))
    = Ok {| name := "node"%string;
            node_function := Some (@InstMappedPolyFit1D_q10_q_to_nu sample_env sample_poly);
            node_class := Some "SpEC_q10_non_spinning"%string |}.
Proof.
  apply (proj2 (@NODE_CLASSES_bijective sample_env)
           "SpEC_q10_non_spinning"%string MappedPolyFit1D_q10_q_to_nu).
  - do 2 right. left.
  - reflexivity.
Defined.

Lemma NodeFunction_h5_prepare_subs_payload_counterexample :
  NodeFunction_h5_prepare_subs (stored_node "Polyfit1D")
  = Ok {| name := "node"%string;
          node_function :=
            Some (InstPolyfit1D {| function_name := None; coefs := None |});
          node_class := Some "Polyfit1D"%string |}
  ∧ NodeFunction_h5_prepare_subs (stored_node "Polyfit1D")
    ≠ (o ← construct Polyfit1D (Polyfit1DArgs (Some "polyval_1d"%string) (Some [1; 2]));
       Ok {| name := "node"%string; node_function := Some o;
             node_class := Some "Polyfit1D"%string |}).
Proof. split; [reflexivity|]. intros [=]. Qed.

Lemma NodeFunction_h5_prepare_subs_default_witness :
  (node_class (stored_node "Polyfit1D") = Some "Polyfit1D"%string
   ∧ ("Polyfit1D"%string, Polyfit1D) ∈ NODE_CLASSES)
  ∧ ∃ nf, NodeFunction_h5_prepare_subs (stored_node "Polyfit1D") = Ok nf.
Proof.
  assert (Hin : ("Polyfit1D"%string, Polyfit1D) ∈ NODE_CLASSES) by (right; left).
  split; [done|].
  apply (proj2 (proj2 (@NodeFunction_h5_prepare_subs_default sample_env
           (stored_node "Polyfit1D") "Polyfit1D"%string Polyfit1D eq_refl Hin))).
  right; left.
Defined.

Lemma NodeFunction_call_uninitialized_witness :
  NodeFunction_init "node" None = Ok (mkNodeFunction "node" None None)
  ∧ NodeFunction_call (@mkNodeFunction sample_env "node" None None) [1; 2] sample_state
    = (Err TypeError, sample_state).
Proof.
  split; [reflexivity|].
  exact (NodeFunction_call_uninitialized
           (@mkNodeFunction sample_env "node" None None) [1; 2] sample_state eq_refl).
Defined.

Lemma sample_poly_lookup :
  dict_getitem function_dict (function_name sample_poly) = Ok polyval_1d.
Proof. reflexivity. Qed.

Lemma unknown_poly_lookup : function_dict !! "spline_1d"%string = None.
Proof. reflexivity. Qed.

Lemma Polyfit1D_call_two_elements_counterexample :
  length [3; 5] = 2%nat ∧ Polyfit1D_call sample_poly [3; 5] = Ok 5.
Proof.
  split; [reflexivity|].
  unfold Polyfit1D_call. rewrite sample_poly_lookup. simpl. f_equal. lra.
Qed.

Lemma input_length_errors_witness :
  (length [1; 2] ≠ 3%nat
   ∧ NRHybSur3dq8Fit_call sample_fit [1; 2] sample_state = (Err ValueError, sample_state))
  ∧ (length [1; 2; 3] ≠ 2%nat
     ∧ NRHybSur2dq15Fit_call sample_fit [1; 2; 3] sample_state
       = (Err ValueError, sample_state))
  ∧ (∃ e, (e = IndexError ∨ e = KeyError)
          ∧ Polyfit1D_call sample_poly [] = Err e
          ∧ MappedPolyFit1D_q10_q_to_nu_call sample_poly [] = Err e)
  ∧ Polyfit1D_call sample_poly [3; 5] = Polyfit1D_call sample_poly (take 1 [3; 5]).
Proof.
  assert (H3 : length [1; 2] ≠ 3%nat) by (simpl; lia).
  assert (H2 : length [1; 2; 3] ≠ 2%nat) by (simpl; lia).
  assert (H1 : (1 < length [3; 5])%nat) by (simpl; lia).
  destruct (@input_length_errors sample_env) as (Ha & Hb & Hc & Hd).
  split_and!; [done|by apply Ha|done|by apply Hb|by apply Hc|by apply Hd].
Defined.

Lemma NodeFunction_init_unregistered_witness :
  (class_of (InstPySurrogateFit sample_fit) = Some pySurrogateFit
   ∧ pySurrogateFit ∉ NODE_CLASSES.*2)
  ∧ NodeFunction_init "node" (Some (InstPySurrogateFit sample_fit))
    = Err (Exception_ "node_function must be in NODE_CLASSES!").
Proof.
  assert (Hnotin : pySurrogateFit ∉ NODE_CLASSES.*2).
  { intros Hin. repeat (apply elem_of_cons in Hin as [[=]|Hin]).
    by apply elem_of_nil in Hin. }
  split; [done|].
  exact (NodeFunction_init_unregistered "node" (InstPySurrogateFit sample_fit)
           pySurrogateFit eq_refl Hnotin).
Defined.

Lemma NodeFunction_init_foreign_name_counterexample :
  class_of (@InstForeign sample_env "Polyfit1D" None) = None
  ∧ (∀ c, c ∈ NODE_CLASSES.*2 →
       class_of (@InstForeign sample_env "Polyfit1D" None) ≠ Some c)
  ∧ NodeFunction_init "node" (Some (InstForeign "Polyfit1D" None))
    = Ok {| name := "node"%string;
            node_function := Some (@InstForeign sample_env "Polyfit1D" None);
            node_class := Some "Polyfit1D"%string |}.
Proof. split_and!; [reflexivity|done|reflexivity]. Qed.

Lemma NodeFunction_init_fails_iff_no_class_name_witness :
  (∀ k v, (k, v) ∈ NODE_CLASSES →
     class_name_of (InstPySurrogateFit sample_fit) ≠ class_name v)
  ∧ NodeFunction_init "node" (Some (InstPySurrogateFit sample_fit))
    = Err (Exception_ "node_function must be in NODE_CLASSES!").
Proof.
  assert (Hno : ∀ k v, (k, v) ∈ NODE_CLASSES →
            class_name_of (InstPySurrogateFit sample_fit) ≠ class_name v).
  { intros k v Hin. repeat (apply elem_of_cons in Hin as [[= -> ->]|Hin]);
      [done..|]. by apply elem_of_nil in Hin. }
  split; [exact Hno|].
  exact (proj2 (@NodeFunction_init_fails_iff_no_class_name sample_env "node"
                  (InstPySurrogateFit sample_fit)) Hno).
Defined.

Lemma lookup_failures_raise_LookupError_witness :
  ((("Spline" : string) ∉ NODE_CLASSES.*1)
   ∧ NodeFunction_h5_prepare_subs (stored_node "Spline") = Err KeyError)
  ∧ (function_dict !! "spline_1d"%string = None
     ∧ Polyfit1D_call unknown_poly [1] = Err KeyError).
Proof.
  assert (Hnotin : ("Spline" : string) ∉ NODE_CLASSES.*1).
  { intros Hin. repeat (apply elem_of_cons in Hin as [[=]|Hin]).
    by apply elem_of_nil in Hin. }
  destruct (@lookup_failures_raise_LookupError sample_env) as (_ & Hreg & Hfun).
  split; split; [done| |done|].
  - exact (Hreg (stored_node "Spline") "Spline"%string eq_refl Hnotin).
  - exact (proj1 (Hfun unknown_poly "spline_1d"%string [1] eq_refl unknown_poly_lookup)).
Defined.

Lemma is_variance_warning_gpr : is_variance_warning gpr_variance_warning = true.
Proof. reflexivity. Qed.

Lemma is_variance_warning_overflow : is_variance_warning overflow_warning = false.
Proof. reflexivity. Qed.

(** On the sample state the variance warning of the sample evaluator is
    dropped, its overflow warning is raised as the filters of the caller
    demand, and the filters are as before. *)
Example NRHybSur3dq8Fit_call_sample :
  NRHybSur3dq8Fit_call sample_fit [1; 1/2; 1/2] sample_state
  = (Err (WarningAsError overflow_warning), sample_state).
Proof.
  unfold NRHybSur3dq8Fit_call.
  rewrite NRHybSur3dq8Fit_mapped_x_spec, Py_bind_lift_Ok.
  change (pySurrogateFit_call sample_fit ?m)
    with (run_fitprog (sample_evaluator [1; 2; 3] m)).
  rewrite catch_warnings_variance by reflexivity.
  cbn [sample_evaluator drop_warnings].
  rewrite is_variance_warning_gpr, is_variance_warning_overflow.
  reflexivity.
Qed.

(** An evaluator that resets the filters undoes the suppression for itself,
    and still the caller finds its filters as they were. *)
Example NRHybSur2dq15Fit_call_resetting :
  NRHybSur2dq15Fit_call resetting_fit [1; 0] sample_state
  = (Ok 0, add_shown gpr_variance_warning a_default sample_state).
Proof. reflexivity. Qed.

Lemma variance_warning_suppression_scoped_witness :
  (fitFunc sample_fit = Some (sample_evaluator [1; 2; 3])
   ∧ NRHybSur2dq15Fit_mapped_x [1; 0] = Ok [np_log 1; spec_chiHat 1 0 0]
   ∧ keeps_filters (sample_evaluator [1; 2; 3] [np_log 1; spec_chiHat 1 0 0]) = true)
  ∧ filters (NRHybSur2dq15Fit_call sample_fit [1; 0] sample_state).2
    = filters sample_state
  ∧ NRHybSur2dq15Fit_call sample_fit [1; 0] sample_state
    = run_fitprog
        (drop_warnings is_variance_warning
           (sample_evaluator [1; 2; 3] [np_log 1; spec_chiHat 1 0 0]))
        sample_state.
Proof.
  destruct (variance_warning_suppression_scoped sample_fit [1; 0] sample_state)
    as (_ & Hframe & _ & Hrun).
  split; [done|]. split; [exact Hframe|].
  exact (Hrun (sample_evaluator [1; 2; 3]) _ eq_refl eq_refl eq_refl).
Defined.

Lemma Polyfit1D_call_first_element_only_witness :
  ((1 ≤ length [3; 5])%nat ∧ (1 ≤ length [3; 7; 11])%nat
   ∧ [3; 5] !! 0%nat = [3; 7; 11] !! 0%nat)
  ∧ Polyfit1D_call sample_poly [3; 5] = Polyfit1D_call sample_poly [3; 7; 11]
  ∧ MappedPolyFit1D_q10_q_to_nu_call sample_poly [3; 5]
    = MappedPolyFit1D_q10_q_to_nu_call sample_poly [3; 7; 11]
  ∧ Polyfit1D_call sample_poly [3; 5] = Polyfit1D_call sample_poly (take 1 [3; 5]).
Proof.
  assert (Hx : (1 ≤ length [3; 5])%nat) by (simpl; lia).
  assert (Hy : (1 ≤ length [3; 7; 11])%nat) by (simpl; lia).
  split; [done|].
  exact (Polyfit1D_call_first_element_only sample_poly [3; 5] [3; 7; 11]
           Hx Hy eq_refl).
Defined.

(** ** The further properties on the sample environment *)

Lemma NodeFunction_init_by_class_name_witness :
  (("NRHybSur3dq8Fit"%string, NRHybSur3dq8Fit) ∈ NODE_CLASSES
   ∧ class_name NRHybSur3dq8Fit
     = class_name_of (@InstForeign sample_env "NRHybSur3dq8Fit" None))
  ∧ NodeFunction_init "node" (Some (InstForeign "NRHybSur3dq8Fit" None))
    = Ok {| name := "node"%string;
            node_function := Some (@InstForeign sample_env "NRHybSur3dq8Fit" None);
            node_class := Some "NRHybSur3dq8Fit"%string |}.
Proof.
  assert (Hin : ("NRHybSur3dq8Fit"%string, NRHybSur3dq8Fit) ∈ NODE_CLASSES)
    by (do 3 right; left).
  split; [done|].
  exact (proj2 (@NodeFunction_init_by_class_name sample_env "node"
                  (InstForeign "NRHybSur3dq8Fit" None))
           "NRHybSur3dq8Fit"%string NRHybSur3dq8Fit Hin eq_refl).
Defined.

Lemma NodeFunction_call_after_init_witness :
  NodeFunction_init "node" (Some (InstPolyfit1D sample_poly))
  = Ok (mkNodeFunction "node" (Some (InstPolyfit1D sample_poly)) (Some "Polyfit1D"%string))
  ∧ NodeFunction_call
      (mkNodeFunction "node" (Some (InstPolyfit1D sample_poly)) (Some "Polyfit1D"%string))
      [3; 5] sample_state
    = call (InstPolyfit1D sample_poly) [3; 5] sample_state.
Proof.
  split; [reflexivity|].
  exact (@NodeFunction_call_after_init sample_env "node" (InstPolyfit1D sample_poly)
           _ [3; 5] sample_state eq_refl).
Defined.

Lemma NodeFunction_init_then_h5_prepare_subs_witness :
  NodeFunction_init "node" (Some (InstNRHybSur2dq15Fit sample_fit))
  = Ok (mkNodeFunction "node" (Some (InstNRHybSur2dq15Fit sample_fit))
          (Some "NRHybSur2dq15Fit"%string))
  ∧ ∃ c, c ∈ NODE_CLASSES.*2
    ∧ class_name c = class_name_of (InstNRHybSur2dq15Fit sample_fit)
    ∧ NodeFunction_h5_prepare_subs
        (mkNodeFunction "node" (Some (InstNRHybSur2dq15Fit sample_fit))
           (Some "NRHybSur2dq15Fit"%string))
      = (o' ← construct c NoArgs;
         Ok {| name := "node"%string; node_function := Some o';
               node_class := Some "NRHybSur2dq15Fit"%string |}).
Proof.
  split; [reflexivity|].
  destruct (@NodeFunction_init_then_h5_prepare_subs sample_env "node"
              (InstNRHybSur2dq15Fit sample_fit) _ eq_refl) as (c & Hc & Hn & Hrun & _).
  by exists c.
Defined.

Lemma h5_prepare_subs_Polyfit1D_unfilled_witness :
  node_class (stored_node "Polyfit1D") = Some "Polyfit1D"%string
  ∧ ∃ nf, NodeFunction_h5_prepare_subs (stored_node "Polyfit1D") = Ok nf
          ∧ node_function nf
            = Some (InstPolyfit1D {| function_name := None; coefs := None |})
          ∧ ∀ x st, NodeFunction_call nf x st = (Err KeyError, st).
Proof.
  split; [reflexivity|].
  exact (@h5_prepare_subs_Polyfit1D_unfilled sample_env
           (stored_node "Polyfit1D") eq_refl).
Defined.

Lemma construct_fitFunc_from_fit_data_witness :
  (@construct sample_env NRHybSur3dq8Fit (FitArgs (Some "amp"%string) (Some [1; 2; 3]))
   = Ok (InstNRHybSur3dq8Fit sample_fit)
   ∧ fitFunc_from_fit_data (InstNRHybSur3dq8Fit sample_fit))
  ∧ (NRHybSur2dq15Fit ∈ [pySurrogateFit; NRHybSur3dq8Fit; NRHybSur2dq15Fit]
     ∧ @getFitEvaluator strict_env None = Err (OtherError "no fit data")
     ∧ @construct strict_env NRHybSur2dq15Fit (FitArgs (Some "amp"%string) None)
       = Err (OtherError "no fit data")).
Proof.
  assert (Hin : NRHybSur2dq15Fit ∈ [pySurrogateFit; NRHybSur3dq8Fit; NRHybSur2dq15Fit])
    by (do 2 right; left).
  split; (split; [done|]).
  - exact (proj1 (@construct_fitFunc_from_fit_data sample_env) NRHybSur3dq8Fit
             (FitArgs (Some "amp"%string) (Some [1; 2; 3])) _ eq_refl).
  - split; [done|].
    exact (proj2 (@construct_fitFunc_from_fit_data strict_env) NRHybSur2dq15Fit
             (Some "amp"%string) None _ Hin eq_refl).
Defined.

Lemma NRHybSur_mapped_x_weighted_mean_witness :
  1 + 2 ≠ 0
  ∧ NRHybSur3dq8Fit_mapped_x [2; 1/2; -1/4]
    = Ok [ln 2;
          (1/2 * (2 * (113 * 2 + 75)) + -1/4 * (75 * 2 + 113))
          / (113 * 2 ^ 2 + 150 * 2 + 113);
          (1/2 - -1/4) / 2].
Proof.
  assert (Hq : 1 + 2 ≠ 0) by lra.
  split; [done|].
  exact (proj1 (proj2 (proj2 (NRHybSur_mapped_x_weighted_mean
                                2 (1/2) (-1/4) Hq)))).
Defined.

Lemma NRHybSur3dq8Fit_mapped_x_equal_spins_witness :
  1 + 2 ≠ 0 ∧ NRHybSur3dq8Fit_mapped_x [2; 1/2; 1/2] = Ok [ln 2; 1/2; 0].
Proof.
  assert (Hq : 1 + 2 ≠ 0) by lra.
  split; [done|].
  exact (NRHybSur3dq8Fit_mapped_x_equal_spins 2 (1/2) Hq).
Defined.

Lemma NRHybSur3dq8Fit_mapped_x_bounds_witness :
  (0 < 2 ∧ -1 <= 1/2 <= 1 ∧ -1 <= -1/4 <= 1)
  ∧ ∃ chiHat chi_a,
      NRHybSur3dq8Fit_mapped_x [2; 1/2; -1/4] = Ok [ln 2; chiHat; chi_a]
      ∧ -1 <= chiHat <= 1
      ∧ (-1 - 1) / 2 <= chi_a <= (1 - -1) / 2.
Proof.
  assert (Hq : 0 < 2) by lra.
  assert (H1 : -1 <= 1/2 <= 1) by lra.
  assert (H2 : -1 <= -1/4 <= 1) by lra.
  split; [done|].
  exact (NRHybSur3dq8Fit_mapped_x_bounds 2 (1/2) (-1/4) (-1) 1 Hq H1 H2).
Defined.

Lemma NRHybSur3dq8Fit_mapped_x_inj_witness :
  (0 < 2 ∧ 0 < 1 + 1
   ∧ NRHybSur3dq8Fit_mapped_x [2; 1/2; -1/4]
     = NRHybSur3dq8Fit_mapped_x [1 + 1; 2/4; -1/4])
  ∧ 2 = 1 + 1 ∧ 1/2 = 2/4 ∧ -1/4 = -1/4.
Proof.
  assert (Hq : 0 < 2) by lra.
  assert (Hq' : 0 < 1 + 1) by lra.
  assert (Heq : NRHybSur3dq8Fit_mapped_x [2; 1/2; -1/4]
                = NRHybSur3dq8Fit_mapped_x [1 + 1; 2/4; -1/4]).
  { replace (1 + 1) with 2 by lra. replace (2/4) with (1/2) by lra. reflexivity. }
  split; [done|].
  exact (NRHybSur3dq8Fit_mapped_x_inj 2 (1/2) (-1/4) (1 + 1) (2/4) (-1/4)
           Hq Hq' Heq).
Defined.

Lemma NRHybSur3dq8Fit_mapped_x_exchange_witness :
  0 < 2
  ∧ ∃ chiHat chi_a,
      NRHybSur3dq8Fit_mapped_x [2; 1/2; -1/4] = Ok [ln 2; chiHat; chi_a]
      ∧ NRHybSur3dq8Fit_mapped_x [/ 2; -1/4; 1/2] = Ok [- ln 2; chiHat; - chi_a].
Proof.
  assert (Hq : 0 < 2) by lra.
  split; [done|].
  exact (NRHybSur3dq8Fit_mapped_x_exchange 2 (1/2) (-1/4) Hq).
Defined.

Lemma NRHybSur2dq15Fit_mapped_x_scaling_witness :
  0 < 2
  ∧ ∃ t, 0 < t < 1
      ∧ ∀ chi1z, NRHybSur2dq15Fit_mapped_x [2; chi1z] = Ok [ln 2; t * chi1z].
Proof.
  assert (Hq : 0 < 2) by lra.
  split; [done|].
  destruct (NRHybSur2dq15Fit_mapped_x_scaling 2 Hq) as (t & Ht & Hmap).
  exists t. split; [done|]. intros chi1z. exact (proj1 (Hmap chi1z)).
Defined.

Lemma NRHybSur_call_silent_witness :
  (0 < 1
   ∧ fitFunc quiet_fit = Some (λ _, Warn gpr_variance_warning (Return 7))
   ∧ NRHybSur2dq15Fit_mapped_x [1; 0] = Ok [np_log 1; spec_chiHat 1 0 0]
   ∧ keeps_filters (Warn gpr_variance_warning (Return 7)) = true
   ∧ all_warnings is_variance_warning (Warn gpr_variance_warning (Return 7)) = true)
  ∧ (NRHybSur2dq15Fit_call quiet_fit [1; 0] sample_state).1 = Ok 7
  ∧ filters (NRHybSur2dq15Fit_call quiet_fit [1; 0] sample_state).2
    = filters sample_state
  ∧ shown (NRHybSur2dq15Fit_call quiet_fit [1; 0] sample_state).2
    = shown sample_state.
Proof.
  assert (Hq : 0 < 1) by lra.
  split; [by split_and!|].
  exact (proj2 (@NRHybSur_call_silent sample_env quiet_fit _ 1 0 0 sample_state
                  Hq eq_refl)
           _ eq_refl eq_refl eq_refl).
Defined.

Lemma NRHybSur_call_as_pySurrogateFit_call_witness :
  (0 < 1
   ∧ fitFunc noisy_fit = Some (λ _, Warn overflow_warning (Return 7))
   ∧ NRHybSur2dq15Fit_mapped_x [1; 0] = Ok [np_log 1; spec_chiHat 1 0 0]
   ∧ keeps_filters (Warn overflow_warning (Return 7)) = true
   ∧ all_warnings (λ w, negb (is_variance_warning w))
       (Warn overflow_warning (Return 7)) = true)
  ∧ (NRHybSur2dq15Fit_call noisy_fit [1; 0] sample_state).1
    = (pySurrogateFit_call noisy_fit [np_log 1; spec_chiHat 1 0 0] sample_state).1
  ∧ filters (NRHybSur2dq15Fit_call noisy_fit [1; 0] sample_state).2
    = filters sample_state
  ∧ filters (pySurrogateFit_call noisy_fit [np_log 1; spec_chiHat 1 0 0]
               sample_state).2
    = filters sample_state.
Proof.
  assert (Hq : 0 < 1) by lra.
  split; [by split_and!|].
  exact (proj2 (@NRHybSur_call_as_pySurrogateFit_call sample_env noisy_fit _ 1 0 0
                  sample_state Hq eq_refl)
           _ eq_refl eq_refl eq_refl).
Defined.

Lemma DummyNodeFunction_call_constant_or_mean_witness :
  ([1; 2; 3] ≠ [] ∧ Forall (λ v, 1 <= v <= 3) [1; 2; 3]
   ∧ ∃ r, DummyNodeFunction_call None [1; 2; 3] = Ok r ∧ 1 <= r <= 3)
  ∧ ([1; 2] ≡ₚ [2; 1]
     ∧ DummyNodeFunction_call None [1; 2] = DummyNodeFunction_call None [2; 1]).
Proof.
  assert (Hne : [1; 2; 3] ≠ ([] : list R)) by done.
  assert (Hall : Forall (λ v, 1 <= v <= 3) [1; 2; 3]).
  { repeat (apply Forall_cons; split; [lra|]). apply Forall_nil_2. }
  assert (Hperm : [1; 2] ≡ₚ [2; 1]) by apply perm_swap.
  destruct DummyNodeFunction_call_constant_or_mean
    as (_ & _ & Hmean & Horder).
  split; split_and!; [done..| |done|].
  - exact (Hmean [1; 2; 3] 1 3 Hne Hall).
  - exact (Horder None [1; 2] [2; 1] Hperm).
Defined.

Lemma Polyfit1D_call_known_function_witness :
  (function_name sample_poly = Some "polyval_1d"%string
   ∧ function_dict !! "polyval_1d"%string = Some polyval_1d)
  ∧ Polyfit1D_call sample_poly [] = Err IndexError
  ∧ MappedPolyFit1D_q10_q_to_nu_call sample_poly [] = Err IndexError
  ∧ ∀ (x0 : R) x, Polyfit1D_call sample_poly (x0 :: x) = polyval_1d (coefs sample_poly) x0.
Proof.
  split; [done|].
  exact (@Polyfit1D_call_known_function sample_env sample_poly "polyval_1d"%string
           polyval_1d eq_refl eq_refl).
Defined.

Lemma fit_call_without_evaluator_witness :
  (fitFunc unset_fit = None ∧ 0 < 1)
  ∧ (NRHybSur3dq8Fit_call unset_fit [1; 1/2; 1/2] sample_state).1 = Err TypeError
  ∧ filters (NRHybSur3dq8Fit_call unset_fit [1; 1/2; 1/2] sample_state).2
    = filters sample_state
  ∧ shown (NRHybSur3dq8Fit_call unset_fit [1; 1/2; 1/2] sample_state).2
    = shown sample_state.
Proof.
  assert (Hq : 0 < 1) by lra.
  split; [done|].
  exact (proj1 (proj2 (@fit_call_without_evaluator sample_env unset_fit
                         sample_state eq_refl)) 1 (1/2) (1/2) Hq).
Defined.
